(** * mwe_glfw: a windowed OpenGL quad demo

    A shallow embedding of [src/main.cpp].  The program is a straight line of
    OpenGL and GLFW calls around one [while] loop, so the embedding is a state
    monad over a [World]: the GLFW library state (windows, the current
    context, the queue of pending input events), the OpenGL state of each
    window's context (object names, buffers, vertex array objects, shaders,
    programs), the two console streams, and the list of API calls issued so
    far.  The functions of [main.cpp] are transcribed call for call on top of
    that state. *)

From Stdlib Require Import ZArith NArith QArith String Ascii.
From stdpp Require Import base gmap strings list.

Open Scope Z_scope.

(** ** Constants of the OpenGL and GLFW headers *)

(** Enumerants that the program passes by name. *)
Inductive GLenum : Type :=
  | GL_ARRAY_BUFFER
  | GL_ELEMENT_ARRAY_BUFFER
  | GL_STATIC_DRAW
  | GL_FLOAT
  | GL_UNSIGNED_INT
  | GL_TRIANGLES
  | GL_VERTEX_SHADER
  | GL_FRAGMENT_SHADER
  | GL_COMPILE_STATUS
  | GL_LINK_STATUS.

(** [glClear] takes a bit mask; the three plane bits of [glad.h]. *)
Definition GL_DEPTH_BUFFER_BIT : Z := 0x00000100.
Definition GL_STENCIL_BUFFER_BIT : Z := 0x00000400.
Definition GL_COLOR_BUFFER_BIT : Z := 0x00004000.

Definition GL_FALSE : Z := 0.
Definition GL_TRUE : Z := 1.

(** Key, action and boolean tokens of [glfw3.h]. *)
Definition GLFW_KEY_ESCAPE : Z := 256.
Definition GLFW_RELEASE : Z := 0.
Definition GLFW_PRESS : Z := 1.
Definition GLFW_REPEAT : Z := 2.
Definition GLFW_TRUE : Z := 1.
Definition GLFW_FALSE : Z := 0.

Definition EXIT_SUCCESS : Z := 0.

(** Object names are [GLuint]; name [0] is never an object. *)
Abbreviation GLuint := N (only parsing).

(** A [GLFWwindow*]: windows are identified by an opaque handle. *)
Abbreviation handle := N (only parsing).

(** ** Data *)

(** One four-byte cell of client or buffer memory.  Every [float] literal of
    the program is a dyadic rational, so a [float] is kept as its exact
    value; a [GLuint] as its number. *)
Inductive Scalar : Type :=
  | F32 (q : Q)
  | U32 (n : N).

(** [sizeof] of an array of four-byte cells, in bytes. *)
Definition sizeof (a : list Scalar) : Z := 4 * Z.of_nat (length a).

(** [sizeof(float)]. *)
Definition sizeof_float : Z := 4.

Definition nl : string := String "010"%char EmptyString.

(** ** OpenGL objects *)

Record Buffer : Type := mkBuffer {
  buf_size : Z;
  buf_data : list Scalar;
  buf_usage : GLenum
}.

Definition new_buffer : Buffer :=
  {| buf_size := 0; buf_data := []; buf_usage := GL_STATIC_DRAW |}.

Record VertexAttrib : Type := mkVertexAttrib {
  va_enabled : bool;
  va_size : Z;
  va_type : GLenum;
  va_normalized : Z;
  va_stride : Z;
  va_pointer : Z;
  va_buffer : GLuint
}.

Definition default_attrib : VertexAttrib :=
  {| va_enabled := false; va_size := 4; va_type := GL_FLOAT;
     va_normalized := GL_FALSE; va_stride := 0; va_pointer := 0;
     va_buffer := 0%N |}.

(** A vertex array object owns the element-array binding and the attribute
    table. *)
Record VAO : Type := mkVAO {
  vao_element_buffer : GLuint;
  vao_attribs : gmap N VertexAttrib
}.

Definition new_vao : VAO :=
  {| vao_element_buffer := 0%N; vao_attribs := ∅ |}.

Record Shader : Type := mkShader {
  sh_type : GLenum;
  sh_source : string;
  sh_compile_status : bool;
  sh_info_log : string;
  sh_delete_flag : bool
}.

Record Program : Type := mkProgram {
  pr_attached : list GLuint;
  pr_link_status : bool;
  pr_info_log : string
}.

Definition new_program : Program :=
  {| pr_attached := []; pr_link_status := false; pr_info_log := EmptyString |}.

(** The state of one rendering context. *)
Record GLContext : Type := mkGLContext {
  vao_names : gset N;
  vaos : gmap N VAO;
  bound_vao : GLuint;
  buffer_names : gset N;
  buffers : gmap N Buffer;
  array_buffer : GLuint;
  shaders : gmap N Shader;
  programs : gmap N Program;
  current_program : GLuint;
  viewport : Z * Z * Z * Z
}.

Definition set_vao_names (f : gset N → gset N) (c : GLContext)
  : GLContext :=
  mkGLContext (f (vao_names c)) (vaos c) (bound_vao c) (buffer_names c)
    (buffers c) (array_buffer c) (shaders c) (programs c) (current_program c)
    (viewport c).
Definition set_vaos (f : gmap N VAO → gmap N VAO) (c : GLContext)
  : GLContext :=
  mkGLContext (vao_names c) (f (vaos c)) (bound_vao c) (buffer_names c)
    (buffers c) (array_buffer c) (shaders c) (programs c) (current_program c)
    (viewport c).
Definition set_bound_vao (n : GLuint) (c : GLContext) : GLContext :=
  mkGLContext (vao_names c) (vaos c) n (buffer_names c)
    (buffers c) (array_buffer c) (shaders c) (programs c) (current_program c)
    (viewport c).
Definition set_buffer_names (f : gset N → gset N) (c : GLContext)
  : GLContext :=
  mkGLContext (vao_names c) (vaos c) (bound_vao c) (f (buffer_names c))
    (buffers c) (array_buffer c) (shaders c) (programs c) (current_program c)
    (viewport c).
Definition set_buffers (f : gmap N Buffer → gmap N Buffer) (c : GLContext)
  : GLContext :=
  mkGLContext (vao_names c) (vaos c) (bound_vao c) (buffer_names c)
    (f (buffers c)) (array_buffer c) (shaders c) (programs c)
    (current_program c) (viewport c).
Definition set_array_buffer (n : GLuint) (c : GLContext) : GLContext :=
  mkGLContext (vao_names c) (vaos c) (bound_vao c) (buffer_names c)
    (buffers c) n (shaders c) (programs c) (current_program c) (viewport c).
Definition set_shaders (f : gmap N Shader → gmap N Shader) (c : GLContext)
  : GLContext :=
  mkGLContext (vao_names c) (vaos c) (bound_vao c) (buffer_names c)
    (buffers c) (array_buffer c) (f (shaders c)) (programs c)
    (current_program c) (viewport c).
Definition set_programs (f : gmap N Program → gmap N Program) (c : GLContext)
  : GLContext :=
  mkGLContext (vao_names c) (vaos c) (bound_vao c) (buffer_names c)
    (buffers c) (array_buffer c) (shaders c) (f (programs c))
    (current_program c) (viewport c).
Definition set_current_program (n : GLuint) (c : GLContext) : GLContext :=
  mkGLContext (vao_names c) (vaos c) (bound_vao c) (buffer_names c)
    (buffers c) (array_buffer c) (shaders c) (programs c) n (viewport c).
Definition set_viewport (v : Z * Z * Z * Z) (c : GLContext) : GLContext :=
  mkGLContext (vao_names c) (vaos c) (bound_vao c) (buffer_names c)
    (buffers c) (array_buffer c) (shaders c) (programs c) (current_program c)
    v.

(** A context as [glfwCreateWindow] hands it out. *)
Definition fresh_context (width height : Z) : GLContext :=
  {| vao_names := ∅; vaos := ∅; bound_vao := 0%N;
     buffer_names := ∅; buffers := ∅; array_buffer := 0%N;
     shaders := ∅; programs := ∅; current_program := 0%N;
     viewport := (0, 0, width, height) |}.

(** ** The OpenGL calls of the program, on one context

    Each function is the effect of one entry point on the state of the
    context it runs in, with the result the entry point hands back.  An
    entry point that raises a GL error leaves the state as it was. *)

Definition GL (A : Type) : Type := GLContext → A * GLContext.

(** A name that is neither [0] nor in use. *)
Definition gen_name (used : gset N) : GLuint := fresh ({[0%N]} ∪ used).

Definition ctx_GenVertexArrays : GL GLuint := λ c,
  let n := gen_name (vao_names c) in
  (n, set_vao_names (λ s, {[n]} ∪ s) c).

Definition ctx_GenBuffers : GL GLuint := λ c,
  let n := gen_name (buffer_names c) in
  (n, set_buffer_names (λ s, {[n]} ∪ s) c).

(** The first bind of a generated name creates the object. *)
Definition ensure {A : Type} (n : N) (fresh_object : A) (m : gmap N A)
  : gmap N A :=
  match m !! n with
  | Some _ => m
  | None => <[n := fresh_object]> m
  end.

Definition ctx_BindVertexArray (array : GLuint) : GL unit := λ c,
  if (array =? 0)%N then (tt, set_bound_vao 0%N c)
  else if bool_decide (array ∈ vao_names c)
  then (tt, set_bound_vao array (set_vaos (ensure array new_vao) c))
  else (tt, c).

(** The buffer bound to [target]: the array binding is context state, the
    element-array binding belongs to the bound vertex array object. *)
Definition target_binding (target : GLenum) (c : GLContext) : GLuint :=
  match target with
  | GL_ARRAY_BUFFER => array_buffer c
  | GL_ELEMENT_ARRAY_BUFFER =>
      match vaos c !! bound_vao c with
      | Some v => vao_element_buffer v
      | None => 0%N
      end
  | _ => 0%N
  end.

Definition set_element_buffer (n : GLuint) (v : VAO) : VAO :=
  {| vao_element_buffer := n; vao_attribs := vao_attribs v |}.

Definition ctx_BindBuffer (target : GLenum) (buffer : GLuint) : GL unit := λ c,
  if negb (buffer =? 0)%N && negb (bool_decide (buffer ∈ buffer_names c))
  then (tt, c)
  else
    let c1 :=
      if (buffer =? 0)%N then c
      else set_buffers (ensure buffer new_buffer) c in
    match target with
    | GL_ARRAY_BUFFER => (tt, set_array_buffer buffer c1)
    | GL_ELEMENT_ARRAY_BUFFER =>
        (tt, set_vaos (alter (set_element_buffer buffer) (bound_vao c1)) c1)
    | _ => (tt, c)
    end.

(** [glBufferData] copies [size] bytes, that is [size / 4] cells. *)
Definition ctx_BufferData (target : GLenum) (size : Z) (data : list Scalar)
    (usage : GLenum) : GL unit := λ c,
  let b := target_binding target c in
  if (b =? 0)%N || (size <? 0) then (tt, c)
  else
    (tt, set_buffers
           (insert b {| buf_size := size;
                        buf_data := take (Z.to_nat (size / 4)) data;
                        buf_usage := usage |}) c).

Definition attrib_of (v : VAO) (index : N) : VertexAttrib :=
  default default_attrib (vao_attribs v !! index).

Definition set_attrib (index : N) (a : VertexAttrib) (v : VAO) : VAO :=
  {| vao_element_buffer := vao_element_buffer v;
     vao_attribs := <[index := a]> (vao_attribs v) |}.

Definition ctx_VertexAttribPointer (index : N) (size : Z) (type : GLenum)
    (normalized : Z) (stride : Z) (pointer : Z) : GL unit := λ c,
  match vaos c !! bound_vao c with
  | None => (tt, c)
  | Some v =>
      if (size <? 1) || (4 <? size) || (stride <? 0) then (tt, c)
      else
        let a :=
          {| va_enabled := va_enabled (attrib_of v index);
             va_size := size; va_type := type; va_normalized := normalized;
             va_stride := stride; va_pointer := pointer;
             va_buffer := array_buffer c |} in
        (tt, set_vaos (insert (bound_vao c) (set_attrib index a v)) c)
  end.

Definition enable_attrib (a : VertexAttrib) : VertexAttrib :=
  {| va_enabled := true; va_size := va_size a; va_type := va_type a;
     va_normalized := va_normalized a; va_stride := va_stride a;
     va_pointer := va_pointer a; va_buffer := va_buffer a |}.

Definition ctx_EnableVertexAttribArray (index : N) : GL unit := λ c,
  match vaos c !! bound_vao c with
  | None => (tt, c)
  | Some v =>
      (tt, set_vaos
             (insert (bound_vao c)
                (set_attrib index (enable_attrib (attrib_of v index)) v)) c)
  end.

Definition ctx_DeleteVertexArrays (array : GLuint) : GL unit := λ c,
  let c1 := set_vao_names (λ s, s ∖ {[array]}) (set_vaos (delete array) c) in
  (tt, if (bound_vao c =? array)%N then set_bound_vao 0%N c1 else c1).

Definition ctx_DeleteBuffers (buffer : GLuint) : GL unit := λ c,
  if (buffer =? 0)%N then (tt, c)
  else
    let c1 :=
      set_buffer_names (λ s, s ∖ {[buffer]})
        (set_buffers (delete buffer) c) in
    let c2 :=
      if (array_buffer c1 =? buffer)%N then set_array_buffer 0%N c1 else c1 in
    let c3 :=
      if (target_binding GL_ELEMENT_ARRAY_BUFFER c2 =? buffer)%N
      then set_vaos (alter (set_element_buffer 0%N) (bound_vao c2)) c2
      else c2 in
    (tt, c3).

Definition ctx_Viewport (x y width height : Z) : GL unit := λ c,
  if (width <? 0) || (height <? 0) then (tt, c)
  else (tt, set_viewport (x, y, width, height) c).

(** Which planes a [glClear] mask selects: colour, depth, stencil. *)
Definition clear_planes (mask : Z) : bool * bool * bool :=
  (negb (Z.land mask GL_COLOR_BUFFER_BIT =? 0),
   negb (Z.land mask GL_DEPTH_BUFFER_BIT =? 0),
   negb (Z.land mask GL_STENCIL_BUFFER_BIT =? 0)).

(** *** Shader and program objects

    The GLSL compiler and linker belong to the driver: they are parameters,
    a function from the stage and its source text to a status and a log, and
    a function from the attached shader objects to a status and a log. *)

Section Program.

Variable glsl_compile : GLenum → string → bool * string.
Variable glsl_link : list Shader → bool * string.

(** Shader and program objects share one name space. *)
Definition gen_object_name (c : GLContext) : GLuint :=
  gen_name (dom (shaders c) ∪ dom (programs c)).

Definition ctx_CreateShader (type : GLenum) : GL GLuint := λ c,
  match type with
  | GL_VERTEX_SHADER | GL_FRAGMENT_SHADER =>
      let n := gen_object_name c in
      (n, set_shaders
            (insert n {| sh_type := type; sh_source := EmptyString;
                         sh_compile_status := false;
                         sh_info_log := EmptyString;
                         sh_delete_flag := false |}) c)
  | _ => (0%N, c)
  end.

Definition with_source (src : string) (s : Shader) : Shader :=
  {| sh_type := sh_type s; sh_source := src;
     sh_compile_status := sh_compile_status s;
     sh_info_log := sh_info_log s; sh_delete_flag := sh_delete_flag s |}.

Definition ctx_ShaderSource (shader : GLuint) (src : string) : GL unit := λ c,
  (tt, set_shaders (alter (with_source src) shader) c).

Definition compiled (s : Shader) : Shader :=
  let r := glsl_compile (sh_type s) (sh_source s) in
  {| sh_type := sh_type s; sh_source := sh_source s;
     sh_compile_status := r.1; sh_info_log := r.2;
     sh_delete_flag := sh_delete_flag s |}.

Definition ctx_CompileShader (shader : GLuint) : GL unit := λ c,
  (tt, set_shaders (alter compiled shader) c).

Definition Z_of_bool (b : bool) : Z := if b then GL_TRUE else GL_FALSE.

(** The [glGet*] entry points write through a pointer; [None] is a call
    that wrote nothing. *)
Definition ctx_GetShaderiv (shader : GLuint) (pname : GLenum)
  : GL (option Z) := λ c,
  match shaders c !! shader, pname with
  | Some s, GL_COMPILE_STATUS => (Some (Z_of_bool (sh_compile_status s)), c)
  | _, _ => (None, c)
  end.

(** At most [maxLength - 1] characters and the terminator are written. *)
Definition bounded_log (maxLength : Z) (log : string) : string :=
  substring 0 (Z.to_nat (maxLength - 1)) log.

Definition ctx_GetShaderInfoLog (shader : GLuint) (maxLength : Z)
  : GL (option string) := λ c,
  match shaders c !! shader with
  | Some s =>
      if maxLength <? 1 then (None, c)
      else (Some (bounded_log maxLength (sh_info_log s)), c)
  | None => (None, c)
  end.

Definition ctx_CreateProgram : GL GLuint := λ c,
  let n := gen_object_name c in
  (n, set_programs (insert n new_program) c).

Definition attach (shader : GLuint) (p : Program) : Program :=
  {| pr_attached := pr_attached p ++ [shader];
     pr_link_status := pr_link_status p; pr_info_log := pr_info_log p |}.

Definition ctx_AttachShader (program shader : GLuint) : GL unit := λ c,
  match programs c !! program, shaders c !! shader with
  | Some p, Some _ =>
      if bool_decide (shader ∈ pr_attached p) then (tt, c)
      else (tt, set_programs (insert program (attach shader p)) c)
  | _, _ => (tt, c)
  end.

Definition linked (c : GLContext) (p : Program) : Program :=
  let r := glsl_link (omap (λ s, shaders c !! s) (pr_attached p)) in
  {| pr_attached := pr_attached p; pr_link_status := r.1;
     pr_info_log := r.2 |}.

Definition ctx_LinkProgram (program : GLuint) : GL unit := λ c,
  (tt, set_programs (alter (linked c) program) c).

Definition ctx_GetProgramiv (program : GLuint) (pname : GLenum)
  : GL (option Z) := λ c,
  match programs c !! program, pname with
  | Some p, GL_LINK_STATUS => (Some (Z_of_bool (pr_link_status p)), c)
  | _, _ => (None, c)
  end.

Definition ctx_GetProgramInfoLog (program : GLuint) (maxLength : Z)
  : GL (option string) := λ c,
  match programs c !! program with
  | Some p =>
      if maxLength <? 1 then (None, c)
      else (Some (bounded_log maxLength (pr_info_log p)), c)
  | None => (None, c)
  end.

Definition is_attached (shader : GLuint) (c : GLContext) : bool :=
  bool_decide (map_Exists (λ _ p, shader ∈ pr_attached p) (programs c)).

Definition flag_for_deletion (s : Shader) : Shader :=
  {| sh_type := sh_type s; sh_source := sh_source s;
     sh_compile_status := sh_compile_status s;
     sh_info_log := sh_info_log s; sh_delete_flag := true |}.

(** A shader that is still attached is only flagged; it goes away with
    the program. *)
Definition ctx_DeleteShader (shader : GLuint) : GL unit := λ c,
  if is_attached shader c
  then (tt, set_shaders (alter flag_for_deletion shader) c)
  else (tt, set_shaders (delete shader) c).

Definition release_shader (shader : GLuint) (c : GLContext) : GLContext :=
  match shaders c !! shader with
  | Some s =>
      if sh_delete_flag s && negb (is_attached shader c)
      then set_shaders (delete shader) c else c
  | None => c
  end.

Definition ctx_DeleteProgram (program : GLuint) : GL unit := λ c,
  match programs c !! program with
  | None => (tt, c)
  | Some p =>
      if (current_program c =? program)%N then (tt, c)
      else
        (tt, foldr release_shader (set_programs (delete program) c)
               (pr_attached p))
  end.

Definition ctx_UseProgram (program : GLuint) : GL unit := λ c,
  if (program =? 0)%N then (tt, set_current_program 0%N c)
  else match programs c !! program with
       | Some p =>
           if pr_link_status p then (tt, set_current_program program c)
           else (tt, c)
       | None => (tt, c)
       end.


(** ** The process and the windowing library *)

(** Every OpenGL and GLFW call of [main.cpp], with its arguments. *)
Inductive Call : Type :=
  | CallWindowShouldClose (window : handle)
  | CallSetWindowShouldClose (window : handle) (value : Z)
  | CallGetFramebufferSize (window : handle)
  | CallSwapBuffers (window : handle)
  | CallPollEvents
  | CallDestroyWindow (window : handle)
  | CallTerminate
  | CallGenVertexArrays (n : Z)
  | CallGenBuffers (n : Z)
  | CallBindVertexArray (array : GLuint)
  | CallBindBuffer (target : GLenum) (buffer : GLuint)
  | CallBufferData (target : GLenum) (size : Z) (data : list Scalar)
      (usage : GLenum)
  | CallVertexAttribPointer (index : N) (size : Z) (type : GLenum)
      (normalized : Z) (stride : Z) (pointer : Z)
  | CallEnableVertexAttribArray (index : N)
  | CallCreateShader (type : GLenum)
  | CallShaderSource (shader : GLuint) (count : Z) (src : string)
  | CallCompileShader (shader : GLuint)
  | CallGetShaderiv (shader : GLuint) (pname : GLenum)
  | CallGetShaderInfoLog (shader : GLuint) (maxLength : Z)
  | CallCreateProgram
  | CallAttachShader (program shader : GLuint)
  | CallLinkProgram (program : GLuint)
  | CallGetProgramiv (program : GLuint) (pname : GLenum)
  | CallGetProgramInfoLog (program : GLuint) (maxLength : Z)
  | CallDeleteShader (shader : GLuint)
  | CallViewport (x y width height : Z)
  | CallClear (mask : Z)
  | CallUseProgram (program : GLuint)
  | CallDrawElements (mode : GLenum) (count : Z) (type : GLenum) (indices : Z)
  | CallDeleteVertexArrays (n : Z) (array : GLuint)
  | CallDeleteBuffers (n : Z) (buffer : GLuint)
  | CallDeleteProgram (program : GLuint).

(** What the window system can hand to [glfwPollEvents]. *)
Inductive Event : Type :=
  | EvKey (window : handle) (key scancode action mods : Z)
  | EvClose (window : handle)
  | EvFramebufferSize (window : handle) (width height : Z).

(** A window with its rendering context.  [key_callback_set] says that
    [key_callback] of [main.cpp] is the window's key callback. *)
Record Window : Type := mkWindow {
  should_close : bool;
  fb_width : Z;
  fb_height : Z;
  key_callback_set : bool;
  swap_count : nat;
  gl_context : GLContext
}.

Definition set_should_close (b : bool) (x : Window) : Window :=
  mkWindow b (fb_width x) (fb_height x) (key_callback_set x) (swap_count x)
    (gl_context x).
Definition set_fb_size (width height : Z) (x : Window) : Window :=
  mkWindow (should_close x) width height (key_callback_set x) (swap_count x)
    (gl_context x).
Definition set_swap_count (n : nat) (x : Window) : Window :=
  mkWindow (should_close x) (fb_width x) (fb_height x) (key_callback_set x) n
    (gl_context x).
Definition set_gl_context (c : GLContext) (x : Window) : Window :=
  mkWindow (should_close x) (fb_width x) (fb_height x) (key_callback_set x)
    (swap_count x) c.

(** The state the program runs in.  [pending] is what the window system
    will deliver: one batch of events for each coming [glfwPollEvents].
    [trace] lists the API calls in the order they were made, and
    [no_context_calls] those OpenGL calls among them that were made while
    no context was current. *)
Record World : Type := mkWorld {
  glfw_initialized : bool;
  windows : gmap N Window;
  current : option handle;
  pending : list (list Event);
  stdout : string;
  stderr : string;
  trace : list Call;
  no_context_calls : list Call
}.

Definition set_glfw_initialized (b : bool) (w : World) : World :=
  mkWorld b (windows w) (current w) (pending w) (stdout w) (stderr w)
    (trace w) (no_context_calls w).
Definition set_windows (f : gmap N Window → gmap N Window) (w : World)
  : World :=
  mkWorld (glfw_initialized w) (f (windows w)) (current w) (pending w)
    (stdout w) (stderr w) (trace w) (no_context_calls w).
Definition set_current (o : option handle) (w : World) : World :=
  mkWorld (glfw_initialized w) (windows w) o (pending w) (stdout w)
    (stderr w) (trace w) (no_context_calls w).
Definition set_pending (p : list (list Event)) (w : World) : World :=
  mkWorld (glfw_initialized w) (windows w) (current w) p (stdout w)
    (stderr w) (trace w) (no_context_calls w).
Definition set_stdout (s : string) (w : World) : World :=
  mkWorld (glfw_initialized w) (windows w) (current w) (pending w) s
    (stderr w) (trace w) (no_context_calls w).
Definition set_stderr (s : string) (w : World) : World :=
  mkWorld (glfw_initialized w) (windows w) (current w) (pending w)
    (stdout w) s (trace w) (no_context_calls w).
Definition set_trace (t : list Call) (w : World) : World :=
  mkWorld (glfw_initialized w) (windows w) (current w) (pending w)
    (stdout w) (stderr w) t (no_context_calls w).
Definition set_no_context_calls (t : list Call) (w : World) : World :=
  mkWorld (glfw_initialized w) (windows w) (current w) (pending w)
    (stdout w) (stderr w) (trace w) t.

(** *** The monad of the program *)

Definition M (A : Type) : Type := World → A * World.

Definition ret {A : Type} (a : A) : M A := λ w, (a, w).

Definition bind {A B : Type} (m : M A) (k : A → M B) : M B := λ w,
  k (m w).1 (m w).2.

#[global] Instance M_ret : MRet M := @ret.
#[global] Instance M_bind : MBind M := λ A B k m, bind m k.

Definition gets {A : Type} (f : World → A) : M A := λ w, (f w, w).

Definition modify (f : World → World) : M unit := λ w, (tt, f w).

Definition log (c : Call) : M unit :=
  modify (λ w, set_trace (trace w ++ [c]) w).

(** The context OpenGL calls act on. *)
Definition current_context (w : World) : option GLContext :=
  h ← current w; gl_context <$> windows w !! h.

Definition put_context (c : GLContext) (w : World) : World :=
  match current w with
  | Some h => set_windows (alter (set_gl_context c) h) w
  | None => w
  end.

(** An OpenGL call: it is recorded, and it runs on the current context.
    Without a current context the call has no effect and writes no result
    ([dflt] is what the caller's variable held); it is recorded as such. *)
Definition gl_call {A : Type} (c : Call) (f : GL A) (dflt : A) : M A := λ w,
  let w1 := (log c w).2 in
  match current_context w1 with
  | Some ctx => ((f ctx).1, put_context (f ctx).2 w1)
  | None => (dflt, set_no_context_calls (no_context_calls w1 ++ [c]) w1)
  end.

(** *** OpenGL entry points *)

Definition glGenVertexArrays (n : Z) (arrays : GLuint) : M GLuint :=
  gl_call (CallGenVertexArrays n) ctx_GenVertexArrays arrays.

Definition glGenBuffers (n : Z) (buffers : GLuint) : M GLuint :=
  gl_call (CallGenBuffers n) ctx_GenBuffers buffers.

Definition glBindVertexArray (array : GLuint) : M unit :=
  gl_call (CallBindVertexArray array) (ctx_BindVertexArray array) tt.

Definition glBindBuffer (target : GLenum) (buffer : GLuint) : M unit :=
  gl_call (CallBindBuffer target buffer) (ctx_BindBuffer target buffer) tt.

Definition glBufferData (target : GLenum) (size : Z) (data : list Scalar)
    (usage : GLenum) : M unit :=
  gl_call (CallBufferData target size data usage)
    (ctx_BufferData target size data usage) tt.

Definition glVertexAttribPointer (index : N) (size : Z) (type : GLenum)
    (normalized : Z) (stride : Z) (pointer : Z) : M unit :=
  gl_call (CallVertexAttribPointer index size type normalized stride pointer)
    (ctx_VertexAttribPointer index size type normalized stride pointer) tt.

Definition glEnableVertexAttribArray (index : N) : M unit :=
  gl_call (CallEnableVertexAttribArray index)
    (ctx_EnableVertexAttribArray index) tt.

Definition glCreateShader (type : GLenum) : M GLuint :=
  gl_call (CallCreateShader type) (ctx_CreateShader type) 0%N.

Definition glShaderSource (shader : GLuint) (count : Z) (src : string)
  : M unit :=
  gl_call (CallShaderSource shader count src) (ctx_ShaderSource shader src) tt.

Definition glCompileShader (shader : GLuint) : M unit :=
  gl_call (CallCompileShader shader) (ctx_CompileShader shader) tt.

Definition glGetShaderiv (shader : GLuint) (pname : GLenum) (params : Z)
  : M Z :=
  r ← gl_call (CallGetShaderiv shader pname) (ctx_GetShaderiv shader pname)
         None;
  ret (default params r).

Definition glGetShaderInfoLog (shader : GLuint) (maxLength : Z)
    (infoLog : string) : M string :=
  r ← gl_call (CallGetShaderInfoLog shader maxLength)
         (ctx_GetShaderInfoLog shader maxLength) None;
  ret (default infoLog r).

Definition glCreateProgram : M GLuint :=
  gl_call CallCreateProgram ctx_CreateProgram 0%N.

Definition glAttachShader (program shader : GLuint) : M unit :=
  gl_call (CallAttachShader program shader) (ctx_AttachShader program shader)
    tt.

Definition glLinkProgram (program : GLuint) : M unit :=
  gl_call (CallLinkProgram program) (ctx_LinkProgram program) tt.

Definition glGetProgramiv (program : GLuint) (pname : GLenum) (params : Z)
  : M Z :=
  r ← gl_call (CallGetProgramiv program pname)
         (ctx_GetProgramiv program pname) None;
  ret (default params r).

Definition glGetProgramInfoLog (program : GLuint) (maxLength : Z)
    (infoLog : string) : M string :=
  r ← gl_call (CallGetProgramInfoLog program maxLength)
         (ctx_GetProgramInfoLog program maxLength) None;
  ret (default infoLog r).

Definition glDeleteShader (shader : GLuint) : M unit :=
  gl_call (CallDeleteShader shader) (ctx_DeleteShader shader) tt.

Definition glViewport (x y width height : Z) : M unit :=
  gl_call (CallViewport x y width height) (ctx_Viewport x y width height) tt.

Definition glClear (mask : Z) : M unit :=
  gl_call (CallClear mask) (λ c, (tt, c)) tt.

Definition glUseProgram (program : GLuint) : M unit :=
  gl_call (CallUseProgram program) (ctx_UseProgram program) tt.

Definition glDrawElements (mode : GLenum) (count : Z) (type : GLenum)
    (indices : Z) : M unit :=
  gl_call (CallDrawElements mode count type indices) (λ c, (tt, c)) tt.

Definition glDeleteVertexArrays (n : Z) (array : GLuint) : M unit :=
  gl_call (CallDeleteVertexArrays n array) (ctx_DeleteVertexArrays array) tt.

Definition glDeleteBuffers (n : Z) (buffer : GLuint) : M unit :=
  gl_call (CallDeleteBuffers n buffer) (ctx_DeleteBuffers buffer) tt.

Definition glDeleteProgram (program : GLuint) : M unit :=
  gl_call (CallDeleteProgram program) (ctx_DeleteProgram program) tt.

(** *** GLFW entry points *)

Definition glfwWindowShouldClose (window : handle) : M Z :=
  log (CallWindowShouldClose window);;
  gets (λ w, match windows w !! window with
             | Some x => Z_of_bool (should_close x)
             | None => 0
             end).

Definition glfwSetWindowShouldClose (window : handle) (value : Z) : M unit :=
  log (CallSetWindowShouldClose window value);;
  modify (set_windows (alter (set_should_close (negb (value =? 0))) window)).

Definition glfwGetFramebufferSize (window : handle) : M (Z * Z) :=
  log (CallGetFramebufferSize window);;
  gets (λ w, match windows w !! window with
             | Some x => (fb_width x, fb_height x)
             | None => (0, 0)
             end).

Definition glfwSwapBuffers (window : handle) : M unit :=
  log (CallSwapBuffers window);;
  modify (set_windows
            (alter (λ x, set_swap_count (S (swap_count x)) x) window)).

(** Destroying a window destroys its context, which is detached first if
    it is the current one. *)
Definition glfwDestroyWindow (window : handle) : M unit :=
  log (CallDestroyWindow window);;
  modify (λ w, set_windows (delete window)
                 (if bool_decide (current w = Some window)
                  then set_current None w else w)).

Definition glfwTerminate : M unit :=
  log CallTerminate;;
  modify (λ w, set_glfw_initialized false
                 (set_current None (set_windows (λ _, ∅) w))).

(** [std::cout << s]. *)
Definition cout (s : string) : M unit :=
  modify (λ w, set_stdout (stdout w +:+ s) w).

(** ** [main.cpp] *)

Definition SCREEN_WIDTH : Z := 640.
Definition SCREEN_HEIGHT : Z := 480.

Definition vertex_shader_text : string :=
  "#version 330 core" +:+ nl +:+
  "layout (location = 0) in vec3 aPos;" +:+ nl +:+
  "void main()" +:+ nl +:+
  "{" +:+ nl +:+
  "   gl_Position = vec4(aPos.x, aPos.y, aPos.z, 1.0);" +:+ nl +:+
  "}".

Definition fragment_shader_text : string :=
  "#version 330 core" +:+ nl +:+
  "out vec4 FragColor;" +:+ nl +:+
  "void main()" +:+ nl +:+
  "{" +:+ nl +:+
  "   FragColor = vec4(1.0f, 0.5f, 0.2f, 1.0f);" +:+ nl +:+
  "}" +:+ nl.

Definition error_callback (error : Z) (description : string) : M unit :=
  modify (λ w, set_stderr (stderr w +:+ "Error: " +:+ description +:+ nl) w).

Definition key_callback (window : handle) (key scancode action mods : Z)
  : M unit :=
  if (key =? GLFW_KEY_ESCAPE) && (action =? GLFW_PRESS)
  then glfwSetWindowShouldClose window GLFW_TRUE
  else ret tt.

Record OpenGLDrawingData : Type := mkOpenGLDrawingData {
  vbo_name : GLuint;
  ibo_name : GLuint;
  vao_name : GLuint
}.

(** [glfwPollEvents] takes the next batch of events off the queue and
    handles them in order.  A key event goes to the window's key callback,
    if that is set; a close request from the window system raises the
    window's close flag; a resize is stored. *)
Definition deliver (e : Event) : M unit :=
  match e with
  | EvKey window key scancode action mods =>
      set ← gets (λ w,
        from_option key_callback_set false (windows w !! window));
      if (set : bool) then key_callback window key scancode action mods
      else mret tt
  | EvClose window =>
      modify (set_windows (alter (set_should_close true) window))
  | EvFramebufferSize window width height =>
      modify (set_windows (alter (set_fb_size width height) window))
  end.

Fixpoint deliver_all (es : list Event) : M unit :=
  match es with
  | [] => mret tt
  | e :: es' => deliver e;; deliver_all es'
  end.

Definition glfwPollEvents : M unit :=
  log CallPollEvents;;
  batch ← gets (λ w, hd [] (pending w));
  modify (λ w, set_pending (tl (pending w)) w);;
  deliver_all batch.

(** The two arrays of [prepare_drawing_data_and_opengl_drawing_data]. *)
Definition vertices : list Scalar :=
  [ F32 (1 # 2);    F32 (1 # 2);    F32 0;    (* top right *)
    F32 (1 # 2);    F32 (-1 # 2);   F32 0;    (* bottom right *)
    F32 (-1 # 2);   F32 (-1 # 2);   F32 0;    (* bottom left *)
    F32 (-1 # 2);   F32 (1 # 2);    F32 0 ].  (* top left *)

Definition indices : list Scalar :=
  [ U32 0; U32 1; U32 3;    (* first triangle *)
    U32 1; U32 2; U32 3 ].  (* second triangle *)

(** A local that is declared without an initialiser holds an indeterminate
    value until something is written to it. *)
Variable indeterminate_GLuint : GLuint.
Variable indeterminate_int : Z.
Variable indeterminate_chars : string.

Definition prepare_drawing_data_and_opengl_drawing_data
  : M OpenGLDrawingData :=
  vao_name ← glGenVertexArrays 1 indeterminate_GLuint;
  vbo_name ← glGenBuffers 1 indeterminate_GLuint;
  ibo_name ← glGenBuffers 1 indeterminate_GLuint;
  glBindVertexArray vao_name;;
  glBindBuffer GL_ARRAY_BUFFER vbo_name;;
  glBufferData GL_ARRAY_BUFFER (sizeof vertices) vertices GL_STATIC_DRAW;;
  glBindBuffer GL_ELEMENT_ARRAY_BUFFER ibo_name;;
  glBufferData GL_ELEMENT_ARRAY_BUFFER (sizeof indices) indices
    GL_STATIC_DRAW;;
  glVertexAttribPointer 0 3 GL_FLOAT GL_FALSE (3 * sizeof_float) 0;;
  glEnableVertexAttribArray 0;;
  glBindBuffer GL_ARRAY_BUFFER 0;;
  glBindVertexArray 0;;
  mret (mkOpenGLDrawingData vbo_name ibo_name vao_name).

Definition create_shader_program : M GLuint :=
  vertex_shader ← glCreateShader GL_VERTEX_SHADER;
  glShaderSource vertex_shader 1 vertex_shader_text;;
  glCompileShader vertex_shader;;
  success ← glGetShaderiv vertex_shader GL_COMPILE_STATUS indeterminate_int;
  infoLog ←
    (if success =? 0 then
       infoLog ← glGetShaderInfoLog vertex_shader 512 indeterminate_chars;
       cout ("ERROR::SHADER::VERTEX::COMPILATION_FAILED" +:+ nl);;
       cout infoLog;;
       cout nl;;
       mret infoLog
     else mret indeterminate_chars);
  fragment_shader ← glCreateShader GL_FRAGMENT_SHADER;
  glShaderSource fragment_shader 1 fragment_shader_text;;
  glCompileShader fragment_shader;;
  success ← glGetShaderiv fragment_shader GL_COMPILE_STATUS success;
  infoLog ←
    (if success =? 0 then
       infoLog ← glGetShaderInfoLog fragment_shader 512 infoLog;
       cout ("ERROR::SHADER::FRAGMENT::COMPILATION_FAILED" +:+ nl);;
       cout infoLog;;
       cout nl;;
       mret infoLog
     else mret infoLog);
  shader_program ← glCreateProgram;
  glAttachShader shader_program vertex_shader;;
  glAttachShader shader_program fragment_shader;;
  glLinkProgram shader_program;;
  success ← glGetProgramiv shader_program GL_LINK_STATUS success;
  (if success =? 0 then
     infoLog ← glGetProgramInfoLog shader_program 512 infoLog;
     cout ("ERROR::SHADER::PROGRAM::LINKING_FAILED" +:+ nl);;
     cout infoLog;;
     cout nl
   else mret tt);;
  glDeleteShader vertex_shader;;
  glDeleteShader fragment_shader;;
  mret shader_program.

(** A [while] loop may run for ever: [fuel] bounds the number of times the
    condition is evaluated, and [None] is a loop still running when the
    fuel is spent. *)
Fixpoint while (fuel : nat) (cond : M bool) (body : M unit) (w : World)
  : option World :=
  match fuel with
  | O => None
  | S fuel' =>
      if (cond w).1 then while fuel' cond body (body (cond w).2).2
      else Some (cond w).2
  end.

(** The window and context bootstrap of [window/window.hpp] is a
    collaborator of the program; it is a parameter here. *)
Variable initialize_glfw_glad_and_return_window :
  Z → Z → string → bool → bool → bool → M handle.

(** The condition and the body of the loop of [main]. *)
Definition main_loop_cond (window : handle) : M bool :=
  close ← glfwWindowShouldClose window;
  mret (close =? 0).

Definition main_loop_body (window : handle) (shader_program vao_name : GLuint)
  : M unit :=
  size ← glfwGetFramebufferSize window;
  glViewport 0 0 size.1 size.2;;
  glClear GL_COLOR_BUFFER_BIT;;
  glUseProgram shader_program;;
  glBindVertexArray vao_name;;
  glDrawElements GL_TRIANGLES 6 GL_UNSIGNED_INT 0;;
  glfwSwapBuffers window;;
  glfwPollEvents.

(** What [main] does once the loop is left. *)
Definition main_epilogue (window : handle) (d : OpenGLDrawingData)
    (shader_program : GLuint) : M Z :=
  glfwDestroyWindow window;;
  glDeleteVertexArrays 1 (vao_name d);;
  glDeleteBuffers 1 (vbo_name d);;
  glDeleteBuffers 1 (ibo_name d);;
  glDeleteProgram shader_program;;
  glfwTerminate;;
  mret EXIT_SUCCESS.

(** [main]: the result is the exit status and the final state.  The two
    screen dimensions are handed to the bootstrap by value ([main] does not
    read them again), and the [LiveInputState] record that [main] only
    passes on is state of the collaborator and is left out. *)
Definition main (fuel : nat) (w : World) : option (Z * World) :=
  let r1 :=
    initialize_glfw_glad_and_return_window SCREEN_WIDTH SCREEN_HEIGHT
      "glfw window" false false false w in
  let window := r1.1 in
  let r2 := prepare_drawing_data_and_opengl_drawing_data r1.2 in
  let r3 := create_shader_program r2.2 in
  let shader_program := r3.1 in
  w4 ← while fuel (main_loop_cond window)
         (main_loop_body window shader_program (vao_name r2.1)) r3.2;
  Some (main_epilogue window r2.1 shader_program w4).

End Program.

(** ** Reading the geometry back

    What a draw call sees: the attribute table of a vertex array object
    says where in which buffer the components of vertex [i] are, and the
    element-array buffer holds the indices. *)

Definition effective_stride (a : VertexAttrib) : Z :=
  if va_stride a =? 0 then 4 * va_size a else va_stride a.

(** The components of vertex [i] for a [GL_FLOAT] attribute. *)
Definition fetch_attrib (c : GLContext) (a : VertexAttrib) (i : nat)
  : option (list Scalar) :=
  b ← buffers c !! va_buffer a;
  let first :=
    Z.to_nat ((va_pointer a + Z.of_nat i * effective_stride a) / 4) in
  let cells := take (Z.to_nat (va_size a)) (drop first (buf_data b)) in
  guard (length cells = Z.to_nat (va_size a));;
  Some cells.

(** How many whole vertices the attribute's buffer holds. *)
Definition vertex_count (c : GLContext) (a : VertexAttrib) : nat :=
  match buffers c !! va_buffer a with
  | Some b => Z.to_nat (buf_size b / effective_stride a)
  | None => O
  end.

Definition position_of (cells : list Scalar) : option (Q * Q * Q) :=
  match cells with
  | [F32 x; F32 y; F32 z] => Some (x, y, z)
  | _ => None
  end.

Definition decode_vertex_buffer (c : GLContext) (a : VertexAttrib)
  : option (list (Q * Q * Q)) :=
  mapM (λ i, fetch_attrib c a i ≫= position_of) (seq 0 (vertex_count c a)).

Definition index_of (s : Scalar) : option N :=
  match s with
  | U32 n => Some n
  | F32 _ => None
  end.

Definition decode_index_buffer (c : GLContext) (v : VAO) : option (list N) :=
  b ← buffers c !! vao_element_buffer v;
  mapM index_of (buf_data b).

(** Primitive assembly for [GL_TRIANGLES]: three consecutive indices make
    one triangle. *)
Fixpoint triangles_of (l : list N) : list (N * N * N) :=
  match l with
  | a :: b :: c :: l' => (a, b, c) :: triangles_of l'
  | _ => []
  end.

(** ** A concrete environment *)

(** Modelled from the spec: the window and context bootstrap
    ([initialize_glfw_glad_and_return_window] of [window/window.hpp]),
    which [main.cpp] calls and which is not among the sources.  It creates
    one window of the given size with an OpenGL context, makes that context
    current, installs the keyboard callback, and returns the window. *)
Definition window_bootstrap (width height : Z) (title : string)
    (fullscreen resizable debug : bool) : M handle := λ w,
  let h := gen_name (dom (windows w)) in
  (h, set_current (Some h)
        (set_windows
           (insert h {| should_close := false; fb_width := width;
                        fb_height := height; key_callback_set := true;
                        swap_count := O;
                        gl_context := fresh_context width height |})
           (set_glfw_initialized true w))).

(** The process at start-up, with the events the window system will
    deliver. *)
Definition initial_world (events : list (list Event)) : World :=
  {| glfw_initialized := false; windows := ∅; current := None;
     pending := events; stdout := EmptyString; stderr := EmptyString;
     trace := []; no_context_calls := [] |}.

(** A compiler that accepts everything, one that rejects the vertex stage,
    and a linker that wants every attached shader compiled. *)
Definition accepting_compile (type : GLenum) (src : string) : bool * string :=
  (true, EmptyString).

Definition rejecting_vertex_compile (type : GLenum) (src : string)
  : bool * string :=
  match type with
  | GL_VERTEX_SHADER => (false, "0:1(1): error: syntax error")
  | _ => (true, EmptyString)
  end.

Definition strict_link (l : list Shader) : bool * string :=
  if forallb sh_compile_status l then (true, EmptyString)
  else (false, "error: linking with uncompiled shader").

(** * Vocabulary of the statements *)

(** [upd ctx cs out w] is [w] after a run that left the current context in
    state [ctx], made the calls [cs] and printed [out]. *)
Definition upd (ctx : GLContext) (cs : list Call) (out : string) (w : World)
  : World :=
  put_context ctx
    (set_trace (trace w ++ cs) (set_stdout (stdout w +:+ out) w)).

(** ** Geometry set-up *)

(** What the calls of geometry set-up do to the context they run in:
    first the three names, then the binding and the uploads. *)
Definition bind_and_upload (d : OpenGLDrawingData) (c3 : GLContext)
  : GLContext :=
  let c4 := (ctx_BindVertexArray (vao_name d) c3).2 in
  let c5 := (ctx_BindBuffer GL_ARRAY_BUFFER (vbo_name d) c4).2 in
  let c6 :=
    (ctx_BufferData GL_ARRAY_BUFFER (sizeof vertices) vertices GL_STATIC_DRAW
       c5).2 in
  let c7 := (ctx_BindBuffer GL_ELEMENT_ARRAY_BUFFER (ibo_name d) c6).2 in
  let c8 :=
    (ctx_BufferData GL_ELEMENT_ARRAY_BUFFER (sizeof indices) indices
       GL_STATIC_DRAW c7).2 in
  let c9 :=
    (ctx_VertexAttribPointer 0 3 GL_FLOAT GL_FALSE (3 * sizeof_float) 0 c8).2 in
  let c10 := (ctx_EnableVertexAttribArray 0 c9).2 in
  let c11 := (ctx_BindBuffer GL_ARRAY_BUFFER 0 c10).2 in
  (ctx_BindVertexArray 0 c11).2.

Definition setup_context : GL OpenGLDrawingData := λ c0,
  let r1 := ctx_GenVertexArrays c0 in
  let r2 := ctx_GenBuffers r1.2 in
  let r3 := ctx_GenBuffers r2.2 in
  let d := mkOpenGLDrawingData r2.1 r3.1 r1.1 in
  (d, bind_and_upload d r3.2).

(** The calls of set-up, given the names it was handed. *)
Definition setup_calls (d : OpenGLDrawingData) : list Call :=
  [ CallGenVertexArrays 1; CallGenBuffers 1; CallGenBuffers 1;
    CallBindVertexArray (vao_name d);
    CallBindBuffer GL_ARRAY_BUFFER (vbo_name d);
    CallBufferData GL_ARRAY_BUFFER 48 vertices GL_STATIC_DRAW;
    CallBindBuffer GL_ELEMENT_ARRAY_BUFFER (ibo_name d);
    CallBufferData GL_ELEMENT_ARRAY_BUFFER 24 indices GL_STATIC_DRAW;
    CallVertexAttribPointer 0 3 GL_FLOAT GL_FALSE 12 0;
    CallEnableVertexAttribArray 0;
    CallBindBuffer GL_ARRAY_BUFFER 0;
    CallBindVertexArray 0 ].

(** Attribute 0 as set-up configures it. *)
Definition quad_attrib (vbo : GLuint) : VertexAttrib :=
  {| va_enabled := true; va_size := 3; va_type := GL_FLOAT;
     va_normalized := GL_FALSE; va_stride := 12; va_pointer := 0;
     va_buffer := vbo |}.

(** The geometry as set-up leaves it in the context. *)
Definition geometry_ready (d : OpenGLDrawingData) (c' : GLContext) : Prop :=
  bound_vao c' = 0%N ∧ array_buffer c' = 0%N ∧
  buffers c' !! vbo_name d
    = Some {| buf_size := 48; buf_data := vertices;
              buf_usage := GL_STATIC_DRAW |} ∧
  buffers c' !! ibo_name d
    = Some {| buf_size := 24; buf_data := indices;
              buf_usage := GL_STATIC_DRAW |} ∧
  ∃ v, vaos c' !! vao_name d = Some v ∧
       vao_element_buffer v = ibo_name d ∧
       attrib_of v 0 = quad_attrib (vbo_name d).

(** ** The outcome of building the shader program *)

Definition blank_shader (type : GLenum) : Shader :=
  {| sh_type := type; sh_source := EmptyString; sh_compile_status := false;
     sh_info_log := EmptyString; sh_delete_flag := false |}.

(** The text one failed stage puts on the console. *)
Definition diagnostic (prefix : string) (ok : bool) (log : string) : string :=
  if ok then EmptyString
  else prefix +:+ nl +:+ bounded_log 512 log +:+ nl.

Section Outcome.

Variable glsl_compile : GLenum → string → bool * string.
Variable glsl_link : list Shader → bool * string.

(** A shader object of stage [type] once [src] has been compiled. *)
Definition shader_object (type : GLenum) (src : string) : Shader :=
  {| sh_type := type; sh_source := src;
     sh_compile_status := (glsl_compile type src).1;
     sh_info_log := (glsl_compile type src).2;
     sh_delete_flag := false |}.

(** The status flags and logs of the two compilations. *)
Definition vertex_ok : bool :=
  (glsl_compile GL_VERTEX_SHADER vertex_shader_text).1.
Definition vertex_log : string :=
  (glsl_compile GL_VERTEX_SHADER vertex_shader_text).2.
Definition fragment_ok : bool :=
  (glsl_compile GL_FRAGMENT_SHADER fragment_shader_text).1.
Definition fragment_log : string :=
  (glsl_compile GL_FRAGMENT_SHADER fragment_shader_text).2.

(** What the linker says about the two shaders of the program. *)
Definition link_outcome : bool * string :=
  glsl_link [ shader_object GL_VERTEX_SHADER vertex_shader_text;
              shader_object GL_FRAGMENT_SHADER fragment_shader_text ].
Definition link_ok : bool := link_outcome.1.
Definition link_log : string := link_outcome.2.

Definition diagnostics : string :=
  diagnostic "ERROR::SHADER::VERTEX::COMPILATION_FAILED" vertex_ok vertex_log
  +:+ diagnostic "ERROR::SHADER::FRAGMENT::COMPILATION_FAILED" fragment_ok
        fragment_log
  +:+ diagnostic "ERROR::SHADER::PROGRAM::LINKING_FAILED" link_ok link_log.

(** The calls of [create_shader_program], given the three names. *)
Definition shader_calls (vs fs p : GLuint) : list Call :=
  [ CallCreateShader GL_VERTEX_SHADER;
    CallShaderSource vs 1 vertex_shader_text;
    CallCompileShader vs;
    CallGetShaderiv vs GL_COMPILE_STATUS ]
  ++ (if vertex_ok then [] else [CallGetShaderInfoLog vs 512])
  ++ [ CallCreateShader GL_FRAGMENT_SHADER;
       CallShaderSource fs 1 fragment_shader_text;
       CallCompileShader fs;
       CallGetShaderiv fs GL_COMPILE_STATUS ]
  ++ (if fragment_ok then [] else [CallGetShaderInfoLog fs 512])
  ++ [ CallCreateProgram;
       CallAttachShader p vs;
       CallAttachShader p fs;
       CallLinkProgram p;
       CallGetProgramiv p GL_LINK_STATUS ]
  ++ (if link_ok then [] else [CallGetProgramInfoLog p 512])
  ++ [ CallDeleteShader vs; CallDeleteShader fs ].

(** The program object after attaching both shaders and linking. *)
Definition linked_program (vs fs : GLuint) : Program :=
  {| pr_attached := [vs; fs]; pr_link_status := link_ok;
     pr_info_log := link_log |}.

End Outcome.

(** ** Windows, events and the loop *)

(** What [glfwWindowShouldClose] would answer, and whether [key_callback]
    is the key callback of the window; both are [false] for a handle that
    is no window. *)
Definition closing (h : handle) (w : World) : bool :=
  from_option should_close false (windows w !! h).

Definition hooked (h : handle) (w : World) : bool :=
  from_option key_callback_set false (windows w !! h).

Definition is_escape_press (key action : Z) : bool :=
  (key =? GLFW_KEY_ESCAPE) && (action =? GLFW_PRESS).

(** Calls a key callback can make. *)
Definition is_close_request (c : Call) : Prop :=
  ∃ h, c = CallSetWindowShouldClose h GLFW_TRUE.

(** A step that makes the calls [cs] and leaves the event queue, the
    console and the flags of every window alone. *)
Definition quiet_step (cs : list Call) (w w' : World) : Prop :=
  trace w' = trace w ++ cs ∧
  pending w' = pending w ∧
  stdout w' = stdout w ∧
  (∀ h, hooked h w' = hooked h w) ∧
  (∀ h, closing h w' = closing h w).

(** The calls of one pass through the loop body, up to and including
    [glfwPollEvents]. *)
Definition frame_calls (window : handle) (shader_program vao_name : GLuint)
    (size : Z * Z) : list Call :=
  [ CallGetFramebufferSize window;
    CallViewport 0 0 size.1 size.2;
    CallClear GL_COLOR_BUFFER_BIT;
    CallUseProgram shader_program;
    CallBindVertexArray vao_name;
    CallDrawElements GL_TRIANGLES 6 GL_UNSIGNED_INT 0;
    CallSwapBuffers window;
    CallPollEvents ].

(** One pass of the loop: the check of the close flag, the calls of a
    frame, and the close requests of the callbacks. *)
Definition is_pass (window : handle) (shader_program vao_name : GLuint)
    (cs : list Call) : Prop :=
  ∃ size callbacks,
    cs = CallWindowShouldClose window
         :: frame_calls window shader_program vao_name size ++ callbacks ∧
    Forall is_close_request callbacks.

Section LoopExit.

Variable glsl_compile : GLenum → string → bool * string.
Variable glsl_link : list Shader → bool * string.
Variable indeterminate_GLuint : GLuint.
Variable indeterminate_int : Z.
Variable indeterminate_chars : string.
Variable initialize_glfw_glad_and_return_window :
  Z → Z → string → bool → bool → bool → M handle.

(** The state in which [main] leaves its loop, if it does within [fuel]
    checks of the close flag. *)
Definition main_at_loop_exit (fuel : nat) (w : World) : option World :=
  let r1 :=
    initialize_glfw_glad_and_return_window SCREEN_WIDTH SCREEN_HEIGHT
      "glfw window" false false false w in
  let r2 :=
    prepare_drawing_data_and_opengl_drawing_data indeterminate_GLuint r1.2 in
  let r3 :=
    create_shader_program glsl_compile glsl_link indeterminate_int
      indeterminate_chars r2.2 in
  while fuel (main_loop_cond r1.1)
    (main_loop_body r1.1 r3.1 (vao_name r2.1)) r3.2.

End LoopExit.

(** ** A concrete run

    The process is started by [window_bootstrap]; the window it creates has
    handle 1 and a fresh context. *)

Definition booted (events : list (list Event)) : World :=
  (window_bootstrap SCREEN_WIDTH SCREEN_HEIGHT "glfw window" false false false
     (initial_world events)).2.

Definition escape_press : Event := EvKey 1%N GLFW_KEY_ESCAPE 9 GLFW_PRESS 0.

(** * Verification *)

(** ** The monad *)

Lemma bind_run {A B : Type} (m : M A) (k : A → M B) (w : World) :
  (m ≫= k) w = k (m w).1 (m w).2.
Proof. reflexivity. Qed.

Lemma string_app_nil_r (s : string) : s +:+ EmptyString = s.
Proof.
  induction s as [|a s IH]; [done|].
  change (String a (s +:+ EmptyString) = String a s). by rewrite IH.
Qed.

Lemma string_app_assoc (a b c : string) : (a +:+ b) +:+ c = a +:+ (b +:+ c).
Proof.
  induction a as [|x a IH]; [done|].
  change (String x ((a +:+ b) +:+ c) = String x (a +:+ b +:+ c)).
  by rewrite IH.
Qed.

(** ** Runs of OpenGL calls *)

Lemma set_gl_context_same (x : Window) : set_gl_context (gl_context x) x = x.
Proof. by destruct x. Qed.

Lemma upd_id (w : World) (ctx : GLContext) :
  current_context w = Some ctx → upd ctx [] EmptyString w = w.
Proof.
  unfold current_context, upd, put_context. intros H.
  rewrite app_nil_r, string_app_nil_r.
  destruct w as [i ws cur p o e t n]; simpl in *.
  destruct cur as [h|]; [|done]. simpl in H.
  unfold set_windows; simpl. f_equal.
  destruct (ws !! h) as [x|] eqn:E; [|done]. simpl in H.
  injection H as <-.
  apply map_eq. intros j. destruct (decide (h = j)) as [<-|Hne].
  - rewrite lookup_alter_eq, E. simpl. by rewrite set_gl_context_same.
  - by rewrite lookup_alter_ne.
Qed.

Lemma current_context_upd (w : World) (ctx0 ctx : GLContext) cs out :
  current_context w = Some ctx0 →
  current_context (upd ctx cs out w) = Some ctx.
Proof.
  unfold current_context, upd, put_context.
  destruct w as [i ws cur p o e t n]; simpl.
  destruct cur as [h|]; [|done]. simpl.
  rewrite lookup_alter_eq. by destruct (ws !! h).
Qed.

Lemma trace_upd w ctx cs out : trace (upd ctx cs out w) = trace w ++ cs.
Proof. destruct w as [i ws [h|] p o e t n]; reflexivity. Qed.

Lemma stdout_upd w ctx cs out : stdout (upd ctx cs out w) = stdout w +:+ out.
Proof. destruct w as [i ws [h|] p o e t n]; reflexivity. Qed.

Lemma current_upd w ctx cs out : current (upd ctx cs out w) = current w.
Proof. destruct w as [i ws [h|] p o e t n]; reflexivity. Qed.

Lemma no_context_calls_upd w ctx cs out :
  no_context_calls (upd ctx cs out w) = no_context_calls w.
Proof. destruct w as [i ws [h|] p o e t n]; reflexivity. Qed.

Lemma stderr_upd w ctx cs out : stderr (upd ctx cs out w) = stderr w.
Proof. destruct w as [i ws [h|] p o e t n]; reflexivity. Qed.

Lemma pending_upd w ctx cs out : pending (upd ctx cs out w) = pending w.
Proof. destruct w as [i ws [h|] p o e t n]; reflexivity. Qed.

Lemma alter_set_gl_context (ws : gmap N Window) h c1 c2 :
  alter (set_gl_context c2) h (alter (set_gl_context c1) h ws)
  = alter (set_gl_context c2) h ws.
Proof.
  apply map_eq. intros j. destruct (decide (h = j)) as [->|Hne].
  - rewrite !lookup_alter_eq. by destruct (ws !! j).
  - by rewrite !lookup_alter_ne.
Qed.

Lemma gl_call_upd {A : Type} (c : Call) (f : GL A) (dflt : A)
    w ctx0 ctx cs out :
  current_context w = Some ctx0 →
  gl_call c f dflt (upd ctx cs out w)
  = ((f ctx).1, upd (f ctx).2 (cs ++ [c]) out w).
Proof.
  intros H. unfold gl_call.
  assert (Hc : current_context (log c (upd ctx cs out w)).2 = Some ctx).
  { rewrite <- (current_context_upd w ctx0 ctx cs out H). done. }
  rewrite Hc. f_equal.
  clear Hc. unfold upd, put_context, log, modify.
  destruct w as [i ws [h|] p o e t n]; [|done]. simpl.
  unfold set_windows. simpl. rewrite alter_set_gl_context.
  by rewrite app_assoc.
Qed.

Lemma cout_upd (s : string) w ctx cs out :
  cout s (upd ctx cs out w) = (tt, upd ctx cs (out +:+ s) w).
Proof.
  unfold cout, modify, upd, put_context.
  destruct w as [i ws [h|] p o e t n]; simpl;
    unfold set_windows, set_stdout, set_trace; simpl;
    by rewrite string_app_assoc.
Qed.

Ltac gl_step H :=
  rewrite bind_run; rewrite (gl_call_upd _ _ _ _ _ _ _ _ H); cbn [fst snd].

(** ** Geometry set-up *)

Lemma gen_name_nonzero (used : gset N) : gen_name used ≠ 0%N.
Proof.
  unfold gen_name. intros E.
  pose proof (is_fresh ({[0%N]} ∪ used)) as F. rewrite E in F. set_solver.
Qed.

Lemma gen_name_fresh (used : gset N) : gen_name used ∉ used.
Proof.
  unfold gen_name. pose proof (is_fresh ({[0%N]} ∪ used)) as F. set_solver.
Qed.

Lemma lookup_ensure_eq {A : Type} (n : N) (d : A) (m : gmap N A) :
  ensure n d m !! n = Some (default d (m !! n)).
Proof.
  unfold ensure. destruct (m !! n) as [x|] eqn:E; simpl.
  - done.
  - by rewrite lookup_insert_eq.
Qed.

Lemma lookup_ensure_ne {A : Type} (n k : N) (d : A) (m : gmap N A) :
  n ≠ k → ensure n d m !! k = m !! k.
Proof.
  intros Hne. unfold ensure. destruct (m !! n); [done|].
  by rewrite lookup_insert_ne.
Qed.

Lemma prepare_run u w ctx0 ctx cs out :
  current_context w = Some ctx0 →
  prepare_drawing_data_and_opengl_drawing_data u (upd ctx cs out w)
  = ((setup_context ctx).1,
     upd (setup_context ctx).2 (cs ++ setup_calls (setup_context ctx).1) out w).
Proof.
  intros H. unfold prepare_drawing_data_and_opengl_drawing_data.
  unfold glGenVertexArrays, glGenBuffers, glBindVertexArray, glBindBuffer,
    glBufferData, glVertexAttribPointer, glEnableVertexAttribArray.
  do 12 gl_step H.
  unfold setup_context, bind_and_upload, setup_calls.
  cbn [fst snd vbo_name ibo_name vao_name].
  rewrite <- !app_assoc. reflexivity.
Qed.

(** The calls of set-up, each under the condition it meets there. *)

Lemma BindVertexArray_generated (n : GLuint) (c : GLContext) :
  n ≠ 0%N → n ∈ vao_names c →
  ctx_BindVertexArray n c
  = (tt, set_bound_vao n (set_vaos (ensure n new_vao) c)).
Proof.
  intros Hn Hin. unfold ctx_BindVertexArray.
  apply N.eqb_neq in Hn. rewrite Hn.
  by rewrite bool_decide_eq_true_2.
Qed.

Lemma BindBuffer_generated (target : GLenum) (n : GLuint) (c : GLContext) :
  n ≠ 0%N → n ∈ buffer_names c →
  ctx_BindBuffer target n c
  = (tt, match target with
         | GL_ARRAY_BUFFER =>
             set_array_buffer n (set_buffers (ensure n new_buffer) c)
         | GL_ELEMENT_ARRAY_BUFFER =>
             set_vaos (alter (set_element_buffer n) (bound_vao c))
               (set_buffers (ensure n new_buffer) c)
         | _ => c
         end).
Proof.
  intros Hn Hin. unfold ctx_BindBuffer.
  apply N.eqb_neq in Hn. rewrite Hn.
  rewrite bool_decide_eq_true_2 by done. simpl. by destruct target.
Qed.

Lemma BufferData_bound (target : GLenum) (size : Z) (data : list Scalar)
    (usage : GLenum) (c : GLContext) (b : GLuint) :
  target_binding target c = b → b ≠ 0%N → 0 ≤ size →
  ctx_BufferData target size data usage c
  = (tt, set_buffers
           (insert b {| buf_size := size;
                        buf_data := take (Z.to_nat (size / 4)) data;
                        buf_usage := usage |}) c).
Proof.
  intros Hb Hn Hs. unfold ctx_BufferData. rewrite Hb.
  apply N.eqb_neq in Hn. rewrite Hn.
  assert ((size <? 0) = false) as -> by lia. done.
Qed.

Lemma VertexAttribPointer_bound (index : N) (size : Z) (type : GLenum)
    (normalized stride pointer : Z) (c : GLContext) (v : VAO) :
  vaos c !! bound_vao c = Some v → 1 ≤ size ≤ 4 → 0 ≤ stride →
  ctx_VertexAttribPointer index size type normalized stride pointer c
  = (tt, set_vaos
           (insert (bound_vao c)
              (set_attrib index
                 {| va_enabled := va_enabled (attrib_of v index);
                    va_size := size; va_type := type;
                    va_normalized := normalized; va_stride := stride;
                    va_pointer := pointer; va_buffer := array_buffer c |} v))
           c).
Proof.
  intros Hv Hs Hst. unfold ctx_VertexAttribPointer. rewrite Hv.
  assert ((size <? 1) = false) as -> by lia.
  assert ((4 <? size) = false) as -> by lia.
  assert ((stride <? 0) = false) as -> by lia. done.
Qed.

Lemma EnableVertexAttribArray_bound (index : N) (c : GLContext) (v : VAO) :
  vaos c !! bound_vao c = Some v →
  ctx_EnableVertexAttribArray index c
  = (tt, set_vaos
           (insert (bound_vao c)
              (set_attrib index (enable_attrib (attrib_of v index)) v)) c).
Proof. intros Hv. unfold ctx_EnableVertexAttribArray. by rewrite Hv. Qed.

Ltac norm_ctx :=
  unfold set_vao_names, set_vaos, set_bound_vao, set_buffer_names,
    set_buffers, set_array_buffer, set_shaders, set_programs,
    set_current_program, set_viewport;
  cbn [fst snd vao_names vaos bound_vao buffer_names buffers array_buffer
       shaders programs current_program viewport].

Ltac norm_ctx_in H :=
  unfold set_vao_names, set_vaos, set_bound_vao, set_buffer_names,
    set_buffers, set_array_buffer, set_shaders, set_programs,
    set_current_program, set_viewport in H;
  cbn [fst snd vao_names vaos bound_vao buffer_names buffers array_buffer
       shaders programs current_program viewport] in H.

Lemma bind_and_upload_spec (d : OpenGLDrawingData) (c : GLContext) :
  vao_name d ≠ 0%N → vbo_name d ≠ 0%N → ibo_name d ≠ 0%N →
  vbo_name d ≠ ibo_name d →
  vao_name d ∈ vao_names c → vbo_name d ∈ buffer_names c →
  ibo_name d ∈ buffer_names c →
  geometry_ready d (bind_and_upload d c).
Proof.
  destruct d as [vbo ibo vao]. destruct c as [vn vs bv bn bs ab sh pr cp vp].
  cbn [vbo_name ibo_name vao_name vao_names buffer_names].
  intros Hvao Hvbo Hibo Hvi Ivao Ivbo Iibo.
  unfold geometry_ready.
  destruct (bind_and_upload _ _) as [vn' vs' bv' bn' bs' ab' sh' pr' cp' vp']
    eqn:E.
  unfold bind_and_upload in E.
  cbn [vbo_name ibo_name vao_name] in E.
  rewrite (BindVertexArray_generated vao) in E by done.
  norm_ctx_in E.
  rewrite (BindBuffer_generated GL_ARRAY_BUFFER vbo) in E by done.
  norm_ctx_in E.
  rewrite (BufferData_bound GL_ARRAY_BUFFER _ _ _ _ vbo) in E by done.
  norm_ctx_in E.
  rewrite (BindBuffer_generated GL_ELEMENT_ARRAY_BUFFER ibo) in E by done.
  norm_ctx_in E.
  assert (Hv : alter (set_element_buffer ibo) vao (ensure vao new_vao vs)
               !! vao
               = Some (set_element_buffer ibo (default new_vao (vs !! vao)))).
  { by rewrite lookup_alter_eq, lookup_ensure_eq. }
  rewrite (BufferData_bound GL_ELEMENT_ARRAY_BUFFER _ _ _ _ ibo) in E;
    [| by (simpl; rewrite Hv) | done | done].
  norm_ctx_in E.
  erewrite VertexAttribPointer_bound in E; [| exact Hv | done | done].
  norm_ctx_in E.
  erewrite EnableVertexAttribArray_bound in E; [| by apply lookup_insert_eq].
  norm_ctx_in E.
  unfold ctx_BindBuffer, ctx_BindVertexArray in E. simpl in E.
  injection E as <- <- <- <- <- <- <- <- <- <-.
  cbn [vaos bound_vao buffers array_buffer vbo_name ibo_name vao_name].
  split_and!; try done.
  - rewrite lookup_insert_ne, lookup_ensure_ne by done.
    by rewrite lookup_insert_eq.
  - by rewrite lookup_insert_eq.
  - eexists. split; [apply lookup_insert_eq|]. split; [done|].
    unfold attrib_of. cbn [set_attrib vao_attribs].
    by rewrite !lookup_insert_eq.
Qed.

Lemma setup_context_spec (c : GLContext) :
  let d := (setup_context c).1 in
  vbo_name d ≠ 0%N ∧ ibo_name d ≠ 0%N ∧ vao_name d ≠ 0%N ∧
  vbo_name d ≠ ibo_name d ∧
  geometry_ready d (setup_context c).2.
Proof.
  unfold setup_context, ctx_GenVertexArrays, ctx_GenBuffers.
  cbn [fst snd vbo_name ibo_name vao_name buffer_names vao_names
       set_vao_names set_buffer_names].
  pose proof (gen_name_nonzero (vao_names c)) as Hvao.
  pose proof (gen_name_nonzero (buffer_names c)) as Hvbo.
  pose proof (gen_name_nonzero
                ({[gen_name (buffer_names c)]} ∪ buffer_names c)) as Hibo.
  pose proof (gen_name_fresh
                ({[gen_name (buffer_names c)]} ∪ buffer_names c)) as Hne.
  assert (gen_name (buffer_names c)
          ≠ gen_name ({[gen_name (buffer_names c)]} ∪ buffer_names c))
    as Hvi by set_solver.
  split_and!; try done.
  apply bind_and_upload_spec; cbn [vbo_name ibo_name vao_name]; try done;
    destruct c; simpl; set_solver.
Qed.

Lemma prepare_spec (u : GLuint) (w : World) (ctx : GLContext) :
  current_context w = Some ctx →
  let r := prepare_drawing_data_and_opengl_drawing_data u w in
  ∃ ctx',
    r.2 = upd ctx' (setup_calls r.1) EmptyString w ∧
    geometry_ready r.1 ctx' ∧
    vbo_name r.1 ≠ 0%N ∧ ibo_name r.1 ≠ 0%N ∧ vao_name r.1 ≠ 0%N ∧
    vbo_name r.1 ≠ ibo_name r.1.
Proof.
  intros H. cbv zeta.
  pose proof (prepare_run u w ctx ctx [] EmptyString H) as R.
  rewrite (upd_id w ctx H) in R. rewrite R. cbn [fst snd app].
  destruct (setup_context_spec ctx) as (? & ? & ? & ? & ?).
  exists (setup_context ctx).2. split_and!; done.
Qed.

Lemma decode_quad (c : GLContext) (vbo : GLuint) :
  buffers c !! vbo
    = Some {| buf_size := 48; buf_data := vertices;
              buf_usage := GL_STATIC_DRAW |} →
  decode_vertex_buffer c (quad_attrib vbo)
  = Some [ (1 # 2, 1 # 2, 0); (1 # 2, -1 # 2, 0);
           (-1 # 2, -1 # 2, 0); (-1 # 2, 1 # 2, 0) ]%Q.
Proof.
  intros Hb. unfold decode_vertex_buffer, vertex_count, fetch_attrib.
  cbn [quad_attrib va_buffer]. rewrite Hb. reflexivity.
Qed.

(** C1. Geometry set-up uploads to the vertex buffer exactly the twelve
    floats of the four positions (0.5, 0.5, 0), (0.5, -0.5, 0),
    (-0.5, -0.5, 0), (-0.5, 0.5, 0), in that order: the buffer named by
    [vbo_name] holds them, attribute 0 of the vertex array object reads
    that buffer as three floats per vertex, and reading it back gives the
    four positions. *)
Theorem vertex_buffer_holds_quad (u : GLuint) (w : World) (ctx : GLContext) :
  current_context w = Some ctx →
  let r := prepare_drawing_data_and_opengl_drawing_data u w in
  ∃ ctx' v b,
    current_context r.2 = Some ctx' ∧
    vaos ctx' !! vao_name r.1 = Some v ∧
    va_enabled (attrib_of v 0) = true ∧
    va_buffer (attrib_of v 0) = vbo_name r.1 ∧
    va_size (attrib_of v 0) = 3 ∧
    va_type (attrib_of v 0) = GL_FLOAT ∧
    buffers ctx' !! vbo_name r.1 = Some b ∧
    buf_data b
    = [ F32 (1 # 2); F32 (1 # 2); F32 0;
        F32 (1 # 2); F32 (-1 # 2); F32 0;
        F32 (-1 # 2); F32 (-1 # 2); F32 0;
        F32 (-1 # 2); F32 (1 # 2); F32 0 ] ∧
    decode_vertex_buffer ctx' (attrib_of v 0)
    = Some [ (1 # 2, 1 # 2, 0); (1 # 2, -1 # 2, 0);
             (-1 # 2, -1 # 2, 0); (-1 # 2, 1 # 2, 0) ]%Q.
Proof.
  intros H r.
  destruct (prepare_spec u w ctx H) as (ctx' & Hw & Hg & _).
  fold r in Hw, Hg. clearbody r.
  destruct Hg as (_ & _ & Hvbo & _ & v & Hv & _ & Ha).
  eexists ctx', v, _. split_and!.
  - rewrite Hw. by eapply current_context_upd.
  - exact Hv.
  - by rewrite Ha.
  - by rewrite Ha.
  - by rewrite Ha.
  - by rewrite Ha.
  - exact Hvbo.
  - reflexivity.
  - rewrite Ha. by apply decode_quad.
Qed.

(** C2. Geometry set-up uploads to the index buffer exactly the six
    unsigned indices 0, 1, 3, 1, 2, 3: the buffer named by [ibo_name] is
    the element-array buffer of the vertex array object, it holds 24 bytes,
    and its content reads back as that list, which assembles into the two
    triangles (0, 1, 3) and (1, 2, 3). *)
Theorem index_buffer_holds_two_triangles (u : GLuint) (w : World)
    (ctx : GLContext) :
  current_context w = Some ctx →
  let r := prepare_drawing_data_and_opengl_drawing_data u w in
  ∃ ctx' v b,
    current_context r.2 = Some ctx' ∧
    vaos ctx' !! vao_name r.1 = Some v ∧
    vao_element_buffer v = ibo_name r.1 ∧
    buffers ctx' !! ibo_name r.1 = Some b ∧
    buf_size b = 6 * 4 ∧
    buf_data b = [U32 0; U32 1; U32 3; U32 1; U32 2; U32 3] ∧
    decode_index_buffer ctx' v = Some [0; 1; 3; 1; 2; 3]%N ∧
    triangles_of [0; 1; 3; 1; 2; 3]%N = [(0, 1, 3); (1, 2, 3)]%N.
Proof.
  intros H r.
  destruct (prepare_spec u w ctx H) as (ctx' & Hw & Hg & _).
  fold r in Hw, Hg. clearbody r.
  destruct Hg as (_ & _ & _ & Hibo & v & Hv & He & _).
  eexists ctx', v, _. split_and!.
  - rewrite Hw. by eapply current_context_upd.
  - exact Hv.
  - exact He.
  - exact Hibo.
  - reflexivity.
  - reflexivity.
  - unfold decode_index_buffer. rewrite He, Hibo. reflexivity.
  - reflexivity.
Qed.

(** C8. Geometry set-up binds the vertex buffer to the array target and
    later binds 0 there, so on return no vertex buffer is bound; it never
    binds 0 to the element-array target, and on return the index buffer is
    still the element-array buffer of the vertex array object. *)
Theorem index_buffer_stays_attached (u : GLuint) (w : World)
    (ctx : GLContext) :
  current_context w = Some ctx →
  let r := prepare_drawing_data_and_opengl_drawing_data u w in
  let d := r.1 in
  (∃ before between after,
     trace r.2
     = trace w ++ before
       ++ CallBindBuffer GL_ARRAY_BUFFER (vbo_name d) :: between
       ++ CallBindBuffer GL_ARRAY_BUFFER 0 :: after ∧
     CallBindVertexArray (vao_name d) ∈ before ∧
     CallBindBuffer GL_ELEMENT_ARRAY_BUFFER (ibo_name d) ∈ between ∧
     CallBindBuffer GL_ELEMENT_ARRAY_BUFFER 0
       ∉ before ++ between ++ after) ∧
  vbo_name d ≠ 0%N ∧ ibo_name d ≠ 0%N ∧
  ∃ ctx' v,
    current_context r.2 = Some ctx' ∧
    array_buffer ctx' = 0%N ∧
    vaos ctx' !! vao_name d = Some v ∧
    vao_element_buffer v = ibo_name d ∧
    is_Some (buffers ctx' !! ibo_name d).
Proof.
  intros H r d.
  destruct (prepare_spec u w ctx H) as (ctx' & Hw & Hg & Hvbo & Hibo & _).
  fold r in Hw, Hg, Hvbo, Hibo. fold d in Hw, Hg, Hvbo, Hibo.
  clearbody d. clearbody r.
  destruct Hg as (_ & Hab & _ & Hb & v & Hv & He & _).
  split_and!; try done.
  - eexists [_; _; _; _], [_; _; _; _; _], [_]. split_and!.
    + rewrite Hw, trace_upd. reflexivity.
    + set_solver.
    + set_solver.
    + cbn [app]. rewrite !elem_of_cons, elem_of_nil.
      intros Hin. repeat destruct Hin as [Hin|Hin]; try discriminate Hin.
      * injection Hin as Hin. by apply Hibo.
      * done.
  - exists ctx', v. split_and!; try done.
    rewrite Hw. by eapply current_context_upd.
Qed.

(** ** Building the shader program *)

Section ShaderProgram.

Variable glsl_compile : GLenum → string → bool * string.
Variable glsl_link : list Shader → bool * string.
Variable indeterminate_int : Z.
Variable indeterminate_chars : string.

Lemma compile_stage (type : GLenum) (src : string) (s : GLuint)
    (c : GLContext) :
  (ctx_CompileShader glsl_compile s
     (ctx_ShaderSource s src
        (set_shaders (insert s (blank_shader type)) c)).2).2
  = set_shaders (insert s (shader_object glsl_compile type src)) c.
Proof.
  destruct c. unfold ctx_CompileShader, ctx_ShaderSource. norm_ctx.
  by rewrite !alter_insert_eq.
Qed.

Lemma GetShaderiv_status (s : GLuint) (sh : Shader) (c : GLContext) :
  shaders c !! s = Some sh →
  ctx_GetShaderiv s GL_COMPILE_STATUS c
  = (Some (Z_of_bool (sh_compile_status sh)), c).
Proof. intros H. unfold ctx_GetShaderiv. by rewrite H. Qed.

Lemma GetShaderInfoLog_log (s : GLuint) (sh : Shader) (c : GLContext) :
  shaders c !! s = Some sh →
  ctx_GetShaderInfoLog s 512 c = (Some (bounded_log 512 (sh_info_log sh)), c).
Proof. intros H. unfold ctx_GetShaderInfoLog. by rewrite H. Qed.

Lemma GetProgramiv_status (p : GLuint) (pr : Program) (c : GLContext) :
  programs c !! p = Some pr →
  ctx_GetProgramiv p GL_LINK_STATUS c
  = (Some (Z_of_bool (pr_link_status pr)), c).
Proof. intros H. unfold ctx_GetProgramiv. by rewrite H. Qed.

Lemma GetProgramInfoLog_log (p : GLuint) (pr : Program) (c : GLContext) :
  programs c !! p = Some pr →
  ctx_GetProgramInfoLog p 512 c
  = (Some (bounded_log 512 (pr_info_log pr)), c).
Proof. intros H. unfold ctx_GetProgramInfoLog. by rewrite H. Qed.

Lemma programs_DeleteShader (s : GLuint) (c : GLContext) :
  programs (ctx_DeleteShader s c).2 = programs c.
Proof. unfold ctx_DeleteShader. by destruct (is_attached s c). Qed.

Lemma link_stage (vs fs p : GLuint) (c : GLContext) :
  vs ≠ fs →
  shaders c !! vs
    = Some (shader_object glsl_compile GL_VERTEX_SHADER vertex_shader_text) →
  shaders c !! fs
    = Some (shader_object glsl_compile GL_FRAGMENT_SHADER
              fragment_shader_text) →
  (ctx_LinkProgram glsl_link p
     (ctx_AttachShader p fs
        (ctx_AttachShader p vs
           (set_programs (insert p new_program) c)).2).2).2
  = set_programs (insert p (linked_program glsl_compile glsl_link vs fs)) c.
Proof.
  intros Hne Hvs Hfs. destruct c as [vn vas bv bn bs ab sh pr cp vp].
  cbn [shaders] in Hvs, Hfs.
  unfold ctx_AttachShader at 2. norm_ctx.
  rewrite lookup_insert_eq, Hvs. cbn [new_program pr_attached].
  rewrite bool_decide_eq_false_2 by (by intros ?%elem_of_nil).
  norm_ctx. unfold ctx_AttachShader. norm_ctx.
  rewrite lookup_insert_eq, Hfs. cbn [attach pr_attached app].
  rewrite bool_decide_eq_false_2
    by (intros ?%list_elem_of_singleton; congruence).
  norm_ctx. unfold ctx_LinkProgram. norm_ctx.
  rewrite alter_insert_eq, !insert_insert_eq.
  unfold linked. cbn [pr_attached attach shaders].
  change ((pr_attached new_program ++ [vs]) ++ [fs]) with [vs; fs].
  cbn [omap list_omap]. by rewrite Hvs, Hfs.
Qed.

Lemma CreateShader_vertex (c : GLContext) :
  ctx_CreateShader GL_VERTEX_SHADER c
  = (gen_object_name c,
     set_shaders
       (insert (gen_object_name c) (blank_shader GL_VERTEX_SHADER)) c).
Proof. reflexivity. Qed.

Lemma CreateShader_fragment (c : GLContext) :
  ctx_CreateShader GL_FRAGMENT_SHADER c
  = (gen_object_name c,
     set_shaders
       (insert (gen_object_name c) (blank_shader GL_FRAGMENT_SHADER)) c).
Proof. reflexivity. Qed.

Lemma gen_object_name_fresh (c : GLContext) :
  gen_object_name c ≠ 0%N ∧ shaders c !! gen_object_name c = None ∧
  programs c !! gen_object_name c = None.
Proof.
  unfold gen_object_name. split; [apply gen_name_nonzero|].
  pose proof (gen_name_fresh (dom (shaders c) ∪ dom (programs c))) as F.
  split; apply not_elem_of_dom; set_solver.
Qed.

Lemma Z_of_bool_eqb (b : bool) : (Z_of_bool b =? 0) = negb b.
Proof. by destruct b. Qed.

Lemma string_app_nil_l (s : string) : EmptyString +:+ s = s.
Proof. reflexivity. Qed.

Lemma upd_ext c cs1 cs2 out1 out2 w :
  cs1 = cs2 → out1 = out2 → upd c cs1 out1 w = upd c cs2 out2 w.
Proof. by intros -> ->. Qed.

Lemma glGetShaderiv_upd s sh old w ctx0 c cs out :
  current_context w = Some ctx0 → shaders c !! s = Some sh →
  glGetShaderiv s GL_COMPILE_STATUS old (upd c cs out w)
  = (Z_of_bool (sh_compile_status sh),
     upd c (cs ++ [CallGetShaderiv s GL_COMPILE_STATUS]) out w).
Proof.
  intros H Hs. unfold glGetShaderiv. rewrite bind_run.
  rewrite (gl_call_upd _ _ _ _ _ _ _ _ H).
  by rewrite (GetShaderiv_status _ _ _ Hs).
Qed.

Lemma glGetShaderInfoLog_upd s sh old w ctx0 c cs out :
  current_context w = Some ctx0 → shaders c !! s = Some sh →
  glGetShaderInfoLog s 512 old (upd c cs out w)
  = (bounded_log 512 (sh_info_log sh),
     upd c (cs ++ [CallGetShaderInfoLog s 512]) out w).
Proof.
  intros H Hs. unfold glGetShaderInfoLog. rewrite bind_run.
  rewrite (gl_call_upd _ _ _ _ _ _ _ _ H).
  by rewrite (GetShaderInfoLog_log _ _ _ Hs).
Qed.

Lemma glGetProgramiv_upd p pr old w ctx0 c cs out :
  current_context w = Some ctx0 → programs c !! p = Some pr →
  glGetProgramiv p GL_LINK_STATUS old (upd c cs out w)
  = (Z_of_bool (pr_link_status pr),
     upd c (cs ++ [CallGetProgramiv p GL_LINK_STATUS]) out w).
Proof.
  intros H Hp. unfold glGetProgramiv. rewrite bind_run.
  rewrite (gl_call_upd _ _ _ _ _ _ _ _ H).
  by rewrite (GetProgramiv_status _ _ _ Hp).
Qed.

Lemma glGetProgramInfoLog_upd p pr old w ctx0 c cs out :
  current_context w = Some ctx0 → programs c !! p = Some pr →
  glGetProgramInfoLog p 512 old (upd c cs out w)
  = (bounded_log 512 (pr_info_log pr),
     upd c (cs ++ [CallGetProgramInfoLog p 512]) out w).
Proof.
  intros H Hp. unfold glGetProgramInfoLog. rewrite bind_run.
  rewrite (gl_call_upd _ _ _ _ _ _ _ _ H).
  by rewrite (GetProgramInfoLog_log _ _ _ Hp).
Qed.

Ltac cout_step := rewrite bind_run; rewrite cout_upd; cbn [fst snd].

(** The block that reports one failed stage. *)
Lemma report_block_run (ok : bool) (get : M string) (prefix old bl : string)
    (call : Call) w c cs out :
  get (upd c cs out w) = (bl, upd c (cs ++ [call]) out w) →
  (if negb ok then
     infoLog ← get;
     cout (prefix +:+ nl);; cout infoLog;; cout nl;; mret infoLog
   else mret old) (upd c cs out w)
  = (if ok then old else bl,
     upd c (cs ++ (if ok then [] else [call]))
       (out +:+ (if ok then EmptyString else prefix +:+ nl +:+ bl +:+ nl)) w).
Proof.
  intros Hget. destruct ok; cbn [negb].
  - by rewrite app_nil_r, string_app_nil_r.
  - rewrite bind_run, Hget. cbn [fst snd]. do 3 cout_step.
    by rewrite !string_app_assoc.
Qed.

Lemma report_block_run_unit (ok : bool) (get : M string) (prefix bl : string)
    (call : Call) w c cs out :
  get (upd c cs out w) = (bl, upd c (cs ++ [call]) out w) →
  (if negb ok then
     infoLog ← get;
     cout (prefix +:+ nl);; cout infoLog;; cout nl
   else mret tt) (upd c cs out w)
  = (tt,
     upd c (cs ++ (if ok then [] else [call]))
       (out +:+ (if ok then EmptyString else prefix +:+ nl +:+ bl +:+ nl)) w).
Proof.
  intros Hget. destruct ok; cbn [negb].
  - by rewrite app_nil_r, string_app_nil_r.
  - rewrite bind_run, Hget. cbn [fst snd]. do 2 cout_step.
    rewrite cout_upd. by rewrite !string_app_assoc.
Qed.

Lemma create_shader_program_run w ctx0 c cs out :
  current_context w = Some ctx0 →
  ∃ c' vs fs p,
    create_shader_program glsl_compile glsl_link indeterminate_int
      indeterminate_chars (upd c cs out w)
    = (p, upd c' (cs ++ shader_calls glsl_compile glsl_link vs fs p)
            (out +:+ diagnostics glsl_compile glsl_link) w) ∧
    p ≠ 0%N ∧ vs ≠ fs ∧
    programs c' !! p = Some (linked_program glsl_compile glsl_link vs fs).
Proof.
  intros H. unfold create_shader_program.
  unfold glCreateShader, glShaderSource, glCompileShader,
    glCreateProgram, glAttachShader, glLinkProgram, glDeleteShader.
  (* the vertex stage *)
  do 3 gl_step H. rewrite CreateShader_vertex. cbn [fst snd].
  rewrite compile_stage.
  generalize (gen_object_name c). intros vs.
  rewrite bind_run.
  erewrite glGetShaderiv_upd; [| exact H | apply lookup_insert_eq].
  cbn [fst snd shader_object sh_compile_status].
  rewrite Z_of_bool_eqb. fold (vertex_ok glsl_compile).
  rewrite bind_run.
  erewrite report_block_run;
    [| eapply glGetShaderInfoLog_upd; [exact H | apply lookup_insert_eq]].
  cbn [fst snd shader_object sh_info_log]. fold (vertex_log glsl_compile).
  (* the fragment stage *)
  do 3 gl_step H. rewrite CreateShader_fragment. cbn [fst snd].
  rewrite compile_stage.
  destruct (gen_object_name_fresh
              (set_shaders
                 (insert vs (shader_object glsl_compile GL_VERTEX_SHADER
                               vertex_shader_text)) c))
    as (_ & Hfs & _).
  revert Hfs. generalize (gen_object_name
              (set_shaders
                 (insert vs (shader_object glsl_compile GL_VERTEX_SHADER
                               vertex_shader_text)) c)).
  intros fs Hfs.
  assert (vs ≠ fs) as Hne.
  { intros ->. cbn [shaders set_shaders] in Hfs.
    by rewrite lookup_insert_eq in Hfs. }
  clear Hfs.
  rewrite bind_run.
  erewrite glGetShaderiv_upd; [| exact H | apply lookup_insert_eq].
  cbn [fst snd shader_object sh_compile_status].
  rewrite Z_of_bool_eqb. fold (fragment_ok glsl_compile).
  rewrite bind_run.
  erewrite report_block_run;
    [| eapply glGetShaderInfoLog_upd; [exact H | apply lookup_insert_eq]].
  cbn [fst snd shader_object sh_info_log]. fold (fragment_log glsl_compile).
  (* the program *)
  gl_step H.
  change (ctx_CreateProgram ?x)
    with (gen_object_name x,
          set_programs (insert (gen_object_name x) new_program) x).
  cbn [fst snd].
  match goal with
  | |- context [gen_object_name ?x] =>
      pose proof (proj1 (gen_object_name_fresh x)) as Hp;
      revert Hp; generalize (gen_object_name x)
  end.
  intros p Hp.
  do 3 gl_step H.
  rewrite link_stage;
    [| done
     | cbn [shaders set_shaders];
       by rewrite lookup_insert_ne, lookup_insert_eq
     | cbn [shaders set_shaders]; by rewrite lookup_insert_eq ].
  rewrite bind_run.
  erewrite glGetProgramiv_upd;
    [| exact H | cbn [programs set_programs]; apply lookup_insert_eq].
  cbn [fst snd linked_program pr_link_status].
  rewrite Z_of_bool_eqb.
  rewrite bind_run.
  erewrite report_block_run_unit;
    [| eapply glGetProgramInfoLog_upd;
       [exact H | cbn [programs set_programs]; apply lookup_insert_eq]].
  cbn [fst snd linked_program pr_info_log].
  do 2 gl_step H.
  eexists _, vs, fs, p. split_and!; [| done | done |].
  - unfold mret, M_ret, ret. f_equal. apply upd_ext.
    + unfold shader_calls. by rewrite <- !app_assoc.
    + unfold diagnostics, diagnostic. by rewrite !string_app_assoc.
  - rewrite !programs_DeleteShader. cbn [programs set_programs].
    apply lookup_insert_eq.
Qed.

Lemma length_substring_le (n : nat) (s : string) :
  (String.length (substring 0 n s) <= n)%nat.
Proof.
  revert s. induction n as [|n IH]; intros [|a s]; cbn; try lia.
  specialize (IH s). lia.
Qed.

Lemma bounded_log_512 (log : string) :
  (String.length (bounded_log 512 log) <= 511)%nat.
Proof. apply (length_substring_le 511). Qed.

Lemma create_shader_program_spec (w : World) (ctx : GLContext) :
  current_context w = Some ctx →
  let r :=
    create_shader_program glsl_compile glsl_link indeterminate_int
      indeterminate_chars w in
  ∃ ctx' vs fs,
    r.2 = upd ctx' (shader_calls glsl_compile glsl_link vs fs r.1)
            (diagnostics glsl_compile glsl_link) w ∧
    r.1 ≠ 0%N ∧ vs ≠ fs ∧
    programs ctx' !! r.1 = Some (linked_program glsl_compile glsl_link vs fs).
Proof.
  intros H. cbv zeta.
  destruct (create_shader_program_run w ctx ctx [] EmptyString H)
    as (c' & vs & fs & p & R & Hp & Hne & Hl).
  rewrite (upd_id w ctx H) in R. rewrite R. cbn [fst snd app].
  by exists c', vs, fs.
Qed.

(** C5. When the vertex shader fails to compile, [create_shader_program]
    fetches the log through a 512-byte buffer (at most 511 characters of
    it), prints the vertex diagnostic with that log, and goes on: it creates
    and compiles the fragment shader, creates, attaches and links the
    program, deletes the two shaders, and returns the name of the program
    object, which is not 0 and names a program of the context. *)
Theorem vertex_failure_is_logged_and_survived (w : World) (ctx : GLContext) :
  current_context w = Some ctx →
  vertex_ok glsl_compile = false →
  let r :=
    create_shader_program glsl_compile glsl_link indeterminate_int
      indeterminate_chars w in
  ∃ vs fs ctx' rest,
    stdout r.2
    = stdout w +:+ "ERROR::SHADER::VERTEX::COMPILATION_FAILED" +:+ nl
      +:+ bounded_log 512 (vertex_log glsl_compile) +:+ nl +:+ rest ∧
    (String.length (bounded_log 512 (vertex_log glsl_compile)) <= 511)%nat ∧
    trace r.2
    = trace w
      ++ [ CallCreateShader GL_VERTEX_SHADER;
           CallShaderSource vs 1 vertex_shader_text;
           CallCompileShader vs;
           CallGetShaderiv vs GL_COMPILE_STATUS;
           CallGetShaderInfoLog vs 512;
           CallCreateShader GL_FRAGMENT_SHADER;
           CallShaderSource fs 1 fragment_shader_text;
           CallCompileShader fs;
           CallGetShaderiv fs GL_COMPILE_STATUS ]
      ++ (if fragment_ok glsl_compile then []
          else [CallGetShaderInfoLog fs 512])
      ++ [ CallCreateProgram;
           CallAttachShader r.1 vs;
           CallAttachShader r.1 fs;
           CallLinkProgram r.1;
           CallGetProgramiv r.1 GL_LINK_STATUS ]
      ++ (if link_ok glsl_compile glsl_link then []
          else [CallGetProgramInfoLog r.1 512])
      ++ [ CallDeleteShader vs; CallDeleteShader fs ] ∧
    r.1 ≠ 0%N ∧
    current_context r.2 = Some ctx' ∧
    is_Some (programs ctx' !! r.1).
Proof.
  intros H Hv r.
  destruct (create_shader_program_spec w ctx H)
    as (ctx' & vs & fs & Hw & Hp & _ & Hl).
  fold r in Hw, Hp, Hl. clearbody r.
  exists vs, fs, ctx',
    (diagnostic "ERROR::SHADER::FRAGMENT::COMPILATION_FAILED"
       (fragment_ok glsl_compile) (fragment_log glsl_compile)
     +:+ diagnostic "ERROR::SHADER::PROGRAM::LINKING_FAILED"
           (link_ok glsl_compile glsl_link) (link_log glsl_compile glsl_link)).
  split_and!.
  - rewrite Hw, stdout_upd. unfold diagnostics, diagnostic at 1.
    rewrite Hv. rewrite !string_app_assoc. reflexivity.
  - apply bounded_log_512.
  - rewrite Hw, trace_upd. unfold shader_calls. rewrite Hv. reflexivity.
  - exact Hp.
  - rewrite Hw. by eapply current_context_upd.
  - by rewrite Hl.
Qed.

(** C6. What [create_shader_program] adds to standard output is, for each
    of the three stages in order, nothing when the stage's status flag is
    true, and otherwise the stage's fixed line followed by the retrieved
    log and a line end; so with all three flags true nothing is printed.
    Standard error is not written. *)
Theorem diagnostics_exactly_on_failure (w : World) (ctx : GLContext) :
  current_context w = Some ctx →
  let r :=
    create_shader_program glsl_compile glsl_link indeterminate_int
      indeterminate_chars w in
  stdout r.2
  = stdout w
    +:+ (if vertex_ok glsl_compile then EmptyString
         else "ERROR::SHADER::VERTEX::COMPILATION_FAILED" +:+ nl
              +:+ bounded_log 512 (vertex_log glsl_compile) +:+ nl)
    +:+ (if fragment_ok glsl_compile then EmptyString
         else "ERROR::SHADER::FRAGMENT::COMPILATION_FAILED" +:+ nl
              +:+ bounded_log 512 (fragment_log glsl_compile) +:+ nl)
    +:+ (if link_ok glsl_compile glsl_link then EmptyString
         else "ERROR::SHADER::PROGRAM::LINKING_FAILED" +:+ nl
              +:+ bounded_log 512 (link_log glsl_compile glsl_link) +:+ nl) ∧
  (vertex_ok glsl_compile = true → fragment_ok glsl_compile = true →
   link_ok glsl_compile glsl_link = true →
   stdout r.2 = stdout w) ∧
  stderr r.2 = stderr w.
Proof.
  intros H r.
  destruct (create_shader_program_spec w ctx H) as (ctx' & vs & fs & Hw & _).
  fold r in Hw. clearbody r. rewrite Hw, stdout_upd, stderr_upd.
  split_and!.
  - reflexivity.
  - intros Hv Hf Hl. unfold diagnostics, diagnostic. rewrite Hv, Hf, Hl.
    cbn. apply string_app_nil_r.
  - reflexivity.
Qed.

End ShaderProgram.

(** ** The keyboard callback and event delivery *)

Lemma key_callback_unfold window key scancode action mods w :
  key_callback window key scancode action mods w
  = if is_escape_press key action
    then (tt, set_windows (alter (set_should_close true) window)
                (set_trace
                   (trace w ++ [CallSetWindowShouldClose window GLFW_TRUE]) w))
    else (tt, w).
Proof.
  unfold key_callback, is_escape_press.
  by destruct ((key =? GLFW_KEY_ESCAPE) && (action =? GLFW_PRESS)).
Qed.

Lemma set_should_close_same (x : Window) :
  set_should_close (should_close x) x = x.
Proof. by destruct x. Qed.

Lemma closing_alter_true (h h' : handle) (w : World) :
  closing h (set_windows (alter (set_should_close true) h') w)
  = closing h w
    || (bool_decide (h = h') && bool_decide (is_Some (windows w !! h))).
Proof.
  unfold closing. cbn [windows set_windows].
  destruct (decide (h = h')) as [<-|Hne].
  - rewrite lookup_alter_eq, bool_decide_eq_true_2 by done.
    destruct (windows w !! h) as [x|];
      cbn [fmap option_fmap option_map from_option].
    + rewrite (bool_decide_eq_true_2 (is_Some _)) by done.
      by rewrite orb_true_r.
    + by rewrite (bool_decide_eq_false_2 (is_Some _)) by (by intros [? ?]).
  - rewrite lookup_alter_ne by done.
    rewrite (bool_decide_eq_false_2 (h = h')) by done.
    by rewrite orb_false_r.
Qed.

Lemma hooked_alter (f : Window → Window) (h h' : handle) (w : World) :
  (∀ x, key_callback_set (f x) = key_callback_set x) →
  hooked h (set_windows (alter f h') w) = hooked h w.
Proof.
  intros Hf. unfold hooked. cbn [windows set_windows].
  destruct (decide (h' = h)) as [->|Hne].
  - rewrite lookup_alter_eq. destruct (windows w !! h); cbn; [apply Hf|done].
  - by rewrite lookup_alter_ne.
Qed.

Lemma closing_alter (f : Window → Window) (h h' : handle) (w : World) :
  (∀ x, should_close (f x) = should_close x) →
  closing h (set_windows (alter f h') w) = closing h w.
Proof.
  intros Hf. unfold closing. cbn [windows set_windows].
  destruct (decide (h' = h)) as [->|Hne].
  - rewrite lookup_alter_eq. destruct (windows w !! h); cbn; [apply Hf|done].
  - by rewrite lookup_alter_ne.
Qed.

Lemma deliver_spec (e : Event) (w : World) :
  let w' := (deliver e w).2 in
  (∃ cb, trace w' = trace w ++ cb ∧ Forall is_close_request cb) ∧
  pending w' = pending w ∧
  stdout w' = stdout w ∧
  (∀ h, hooked h w' = hooked h w) ∧
  (∀ h, closing h w = true → closing h w' = true) ∧
  (∀ h scancode mods,
     e = EvKey h GLFW_KEY_ESCAPE scancode GLFW_PRESS mods →
     hooked h w = true → closing h w' = true).
Proof.
  destruct e as [h' key sc action mods | h' | h' width height]; cbn zeta.
  - unfold deliver. rewrite bind_run. cbn [gets fst snd].
    fold (hooked h' w).
    destruct (hooked h' w) eqn:Hh.
    + rewrite key_callback_unfold.
      destruct (is_escape_press key action) eqn:Hp; cbn [snd].
      * split_and!.
        -- eexists [_]. split; [reflexivity|].
           constructor; [by eexists | constructor].
        -- done.
        -- done.
        -- intros h. by rewrite hooked_alter.
        -- intros h Hc. rewrite closing_alter_true.
           unfold closing in *. cbn [windows set_trace]. by rewrite Hc.
        -- intros h sc' mods' [= -> _ _ _ _] _.
           rewrite closing_alter_true. rewrite bool_decide_eq_true_2 by done.
           unfold hooked in Hh. cbn [windows set_trace].
           destruct (windows w !! h); [|done].
           rewrite bool_decide_eq_true_2 by done. by rewrite orb_true_r.
      * split_and!; try done.
        -- exists []. by rewrite app_nil_r.
        -- intros h sc' mods' [= -> -> _ -> _]. done.
    + cbn [mret M_ret ret snd]. split_and!; try done.
      * exists []. by rewrite app_nil_r.
      * intros h sc' mods' [= -> _ _ _ _] Hh'. congruence.
  - cbn [deliver modify snd]. split_and!; try done.
    + exists []. by rewrite app_nil_r.
    + intros h. by apply hooked_alter.
    + intros h Hc. rewrite closing_alter_true. by rewrite Hc.
  - cbn [deliver modify snd]. split_and!; try done.
    + exists []. by rewrite app_nil_r.
    + intros h. by apply hooked_alter.
    + intros h Hc. by rewrite closing_alter.
Qed.

Lemma deliver_all_spec (es : list Event) (w : World) :
  let w' := (deliver_all es w).2 in
  (∃ cb, trace w' = trace w ++ cb ∧ Forall is_close_request cb) ∧
  pending w' = pending w ∧
  stdout w' = stdout w ∧
  (∀ h, hooked h w' = hooked h w) ∧
  (∀ h, closing h w = true → closing h w' = true) ∧
  (∀ h scancode mods,
     EvKey h GLFW_KEY_ESCAPE scancode GLFW_PRESS mods ∈ es →
     hooked h w = true → closing h w' = true).
Proof.
  revert w. induction es as [|e es IH]; intros w; cbn zeta.
  - cbn [deliver_all mret M_ret ret snd]. split_and!; try done.
    + exists []. by rewrite app_nil_r.
    + intros h sc mods Hin. by apply elem_of_nil in Hin.
  - cbn [deliver_all]. rewrite bind_run.
    destruct (deliver_spec e w)
      as ((cb1 & Ht1 & Hf1) & Hp1 & Ho1 & Hh1 & Hc1 & He1).
    destruct (IH (deliver e w).2)
      as ((cb2 & Ht2 & Hf2) & Hp2 & Ho2 & Hh2 & Hc2 & He2).
    split_and!.
    + exists (cb1 ++ cb2). rewrite Ht2, Ht1, app_assoc. split; [done|].
      by apply Forall_app.
    + by rewrite Hp2.
    + by rewrite Ho2.
    + intros h. by rewrite Hh2.
    + intros h Hc. by apply Hc2, Hc1.
    + intros h sc mods Hin Hh. apply elem_of_cons in Hin as [<-|Hin].
      * apply Hc2. by eapply He1.
      * eapply He2; [exact Hin|]. by rewrite Hh1.
Qed.

(** ** The render loop *)

Lemma quiet_step_trans cs1 cs2 w w1 w2 :
  quiet_step cs1 w w1 → quiet_step cs2 w1 w2 → quiet_step (cs1 ++ cs2) w w2.
Proof.
  intros (Ht1 & Hp1 & Ho1 & Hh1 & Hc1) (Ht2 & Hp2 & Ho2 & Hh2 & Hc2).
  split_and!.
  - by rewrite Ht2, Ht1, app_assoc.
  - by rewrite Hp2.
  - by rewrite Ho2.
  - intros h. by rewrite Hh2.
  - intros h. by rewrite Hc2.
Qed.

Lemma put_context_quiet (c : GLContext) (w : World) :
  quiet_step [] w (put_context c w).
Proof.
  unfold put_context. destruct (current w) as [h|].
  - split_and!; cbn [trace pending stdout set_windows].
    + by rewrite app_nil_r.
    + done.
    + done.
    + intros h'. by apply hooked_alter.
    + intros h'. by apply closing_alter.
  - split_and!; try done. by rewrite app_nil_r.
Qed.

Lemma gl_call_quiet {A : Type} (c : Call) (f : GL A) (dflt : A) (w : World) :
  quiet_step [c] w (gl_call c f dflt w).2.
Proof.
  unfold gl_call.
  assert (quiet_step [c] w (log c w).2) as Hlog by done.
  destruct (current_context (log c w).2) as [ctx|]; cbn [snd].
  - apply (quiet_step_trans [c] [] _ _ _ Hlog), put_context_quiet.
  - done.
Qed.

Lemma glfwGetFramebufferSize_quiet (window : handle) (w : World) :
  quiet_step [CallGetFramebufferSize window] w
    (glfwGetFramebufferSize window w).2.
Proof. done. Qed.

Lemma glfwSwapBuffers_quiet (window : handle) (w : World) :
  quiet_step [CallSwapBuffers window] w (glfwSwapBuffers window w).2.
Proof.
  unfold glfwSwapBuffers. rewrite bind_run. cbn [modify log fst snd].
  split_and!; try done.
  - intros h. by rewrite hooked_alter.
  - intros h. by rewrite closing_alter.
Qed.

Lemma glfwPollEvents_spec (w : World) :
  let w' := (glfwPollEvents w).2 in
  (∃ cb, trace w' = trace w ++ CallPollEvents :: cb ∧
         Forall is_close_request cb) ∧
  pending w' = tail (pending w) ∧
  stdout w' = stdout w ∧
  (∀ h, hooked h w' = hooked h w) ∧
  (∀ h, closing h w = true → closing h w' = true) ∧
  (∀ h scancode mods,
     EvKey h GLFW_KEY_ESCAPE scancode GLFW_PRESS mods ∈ hd [] (pending w) →
     hooked h w = true → closing h w' = true).
Proof.
  cbn zeta. unfold glfwPollEvents. rewrite !bind_run.
  cbn [log modify gets fst snd pending set_trace].
  set (w1 := set_pending _ _).
  destruct (deliver_all_spec (hd [] (pending w)) w1)
    as ((cb & Ht & Hf) & Hp & Ho & Hh & Hc & He).
  split_and!; try done.
  exists cb. split; [|done]. rewrite Ht. subst w1.
  cbn [trace set_pending set_trace].
  by rewrite <- app_assoc.
Qed.

Lemma main_loop_body_spec (window : handle) (shader_program vao_name : GLuint)
    (w : World) :
  let size := (glfwGetFramebufferSize window w).1 in
  let w' := (main_loop_body window shader_program vao_name w).2 in
  (∃ cb, trace w'
         = trace w ++ frame_calls window shader_program vao_name size ++ cb ∧
         Forall is_close_request cb) ∧
  pending w' = tail (pending w) ∧
  stdout w' = stdout w ∧
  (∀ h, hooked h w' = hooked h w) ∧
  (∀ h, closing h w = true → closing h w' = true) ∧
  (∀ h scancode mods,
     EvKey h GLFW_KEY_ESCAPE scancode GLFW_PRESS mods ∈ hd [] (pending w) →
     hooked h w = true → closing h w' = true).
Proof.
  cbn zeta. unfold main_loop_body.
  unfold glViewport, glClear, glUseProgram, glBindVertexArray, glDrawElements.
  rewrite bind_run.
  pose proof (glfwGetFramebufferSize_quiet window w) as Q.
  set (size := (glfwGetFramebufferSize window w).1).
  set (w0 := (glfwGetFramebufferSize window w).2) in *.
  do 5 (rewrite bind_run;
        match goal with
        | Q : quiet_step ?cs w ?wk |- context [gl_call ?c ?f ?d ?wk] =>
            pose proof (quiet_step_trans _ _ _ _ _ Q (gl_call_quiet c f d wk));
            clear Q
        end;
        match goal with Q' : quiet_step _ w _ |- _ => rename Q' into Q end).
  rewrite bind_run.
  match goal with
  | Q : quiet_step ?cs w ?wk |- _ =>
      pose proof (quiet_step_trans _ _ _ _ _ Q
                    (glfwSwapBuffers_quiet window wk)) as Q7
  end.
  clear Q. cbn [app] in Q7.
  set (w7 := (glfwSwapBuffers window _).2) in *. clearbody w7.
  destruct Q7 as (Ht7 & Hp7 & Ho7 & Hh7 & Hc7).
  destruct (glfwPollEvents_spec w7)
    as ((cb & Ht & Hf) & Hp & Ho & Hh & Hc & He).
  split_and!.
  - exists cb. split; [|done]. rewrite Ht, Ht7. unfold frame_calls.
    rewrite <- app_assoc. reflexivity.
  - by rewrite Hp, Hp7.
  - by rewrite Ho.
  - intros h. by rewrite Hh.
  - intros h Hcl. apply Hc. by rewrite Hc7.
  - intros h sc mods Hin Hhk. eapply He.
    + rewrite Hp7. exact Hin.
    + by rewrite Hh7.
Qed.

(** C4. One pass through the body of the render loop makes, in this order:
    the query of the framebuffer size, [glViewport] with exactly the size
    that query returned, [glClear] of the colour plane alone,
    [glUseProgram], [glBindVertexArray], one [glDrawElements] of 6 indices
    as triangles with unsigned-int indices from offset 0, the buffer swap,
    and [glfwPollEvents]; what follows in the same pass are only the close
    requests that key callbacks make while the events are handled. *)
Theorem loop_iteration_calls (window : handle)
    (shader_program vao_name : GLuint) (w : World) :
  let size := (glfwGetFramebufferSize window w).1 in
  let w' := (main_loop_body window shader_program vao_name w).2 in
  ∃ callbacks,
    trace w'
    = trace w
      ++ [ CallGetFramebufferSize window;
           CallViewport 0 0 size.1 size.2;
           CallClear GL_COLOR_BUFFER_BIT;
           CallUseProgram shader_program;
           CallBindVertexArray vao_name;
           CallDrawElements GL_TRIANGLES 6 GL_UNSIGNED_INT 0;
           CallSwapBuffers window;
           CallPollEvents ]
      ++ callbacks ∧
    Forall is_close_request callbacks ∧
    clear_planes GL_COLOR_BUFFER_BIT = (true, false, false).
Proof.
  intros size w'.
  destruct (main_loop_body_spec window shader_program vao_name w)
    as ((cb & Ht & Hf) & _).
  exists cb. split_and!; [exact Ht | exact Hf | reflexivity].
Qed.

Lemma main_loop_cond_run (window : handle) (w : World) :
  main_loop_cond window w
  = (negb (closing window w), (log (CallWindowShouldClose window) w).2).
Proof.
  unfold main_loop_cond, glfwWindowShouldClose. rewrite !bind_run.
  cbn [log modify gets mret M_ret ret fst snd windows set_trace].
  unfold closing. destruct (windows w !! window) as [x|]; cbn.
  - by rewrite Z_of_bool_eqb.
  - done.
Qed.

Lemma while_exits_when_closing (fuel : nat) (window : handle) (body : M unit)
    (w : World) :
  closing window w = true →
  while (S fuel) (main_loop_cond window) body w
  = Some (log (CallWindowShouldClose window) w).2.
Proof.
  intros Hc. cbn [while]. rewrite main_loop_cond_run, Hc. reflexivity.
Qed.

Lemma while_runs_when_open (fuel : nat) (window : handle) (body : M unit)
    (w : World) :
  closing window w = false →
  while (S fuel) (main_loop_cond window) body w
  = while fuel (main_loop_cond window) body
      (body (log (CallWindowShouldClose window) w).2).2.
Proof.
  intros Hc. cbn [while]. rewrite main_loop_cond_run, Hc. reflexivity.
Qed.

Lemma loop_trace (window : handle) (shader_program vao_name : GLuint)
    (fuel : nat) (w w' : World) :
  while fuel (main_loop_cond window)
    (main_loop_body window shader_program vao_name) w = Some w' →
  ∃ passes,
    Forall (is_pass window shader_program vao_name) passes ∧
    trace w' = trace w ++ concat passes ++ [CallWindowShouldClose window].
Proof.
  revert w. induction fuel as [|fuel IH]; intros w Hrun; [done|].
  destruct (closing window w) eqn:Hc.
  - rewrite while_exits_when_closing in Hrun by done.
    injection Hrun as <-. exists []. split; [constructor|]. reflexivity.
  - rewrite while_runs_when_open in Hrun by done.
    set (w0 := (log (CallWindowShouldClose window) w).2) in *.
    destruct (main_loop_body_spec window shader_program vao_name w0)
      as ((cb & Ht & Hf) & _).
    destruct (IH _ Hrun) as (passes & Hp & Ht').
    eexists (_ :: passes). split.
    + constructor; [|exact Hp]. eexists _, cb. split; [reflexivity|done].
    + rewrite Ht', Ht. subst w0. cbn [log modify snd trace set_trace concat].
      rewrite <- !app_assoc. reflexivity.
Qed.

(** C7. With [key_callback] as the window's key callback and the loop
    running, a press of Escape among the events of the next poll raises the
    close flag, and the loop makes exactly the pass that polls the press and
    leaves at the check that follows; the callback reacts to nothing but a
    press of Escape. *)
Theorem escape_press_ends_the_loop (window : handle)
    (shader_program vao_name : GLuint) (w : World)
    (batch : list Event) (rest : list (list Event))
    (scancode mods : Z) (fuel : nat) :
  hooked window w = true →
  closing window w = false →
  pending w = batch :: rest →
  EvKey window GLFW_KEY_ESCAPE scancode GLFW_PRESS mods ∈ batch →
  closing window
    (key_callback window GLFW_KEY_ESCAPE scancode GLFW_PRESS mods w).2
  = true ∧
  (let w0 := (main_loop_cond window w).2 in
   let w1 := (main_loop_body window shader_program vao_name w0).2 in
   closing window w1 = true ∧
   while (S (S fuel)) (main_loop_cond window)
     (main_loop_body window shader_program vao_name) w
   = Some (main_loop_cond window w1).2) ∧
  (∀ key action scancode' mods',
     (key, action) ≠ (GLFW_KEY_ESCAPE, GLFW_PRESS) →
     key_callback window key scancode' action mods' w = (tt, w)).
Proof.
  intros Hh Hc Hp Hin. split_and!.
  - rewrite key_callback_unfold. cbn [is_escape_press snd].
    change (is_escape_press GLFW_KEY_ESCAPE GLFW_PRESS) with true. cbn [snd].
    rewrite closing_alter_true, bool_decide_eq_true_2 by done.
    unfold hooked in Hh. cbn [windows set_trace].
    destruct (windows w !! window); [|done].
    rewrite bool_decide_eq_true_2 by done. by rewrite orb_true_r.
  - cbn zeta. rewrite !main_loop_cond_run. cbn [snd].
    set (w0 := (log (CallWindowShouldClose window) w).2).
    destruct (main_loop_body_spec window shader_program vao_name w0)
      as (_ & _ & _ & _ & _ & He).
    assert (closing window
              (main_loop_body window shader_program vao_name w0).2 = true)
      as Hc1.
    { eapply He; [|exact Hh]. subst w0.
      cbn [log modify snd pending set_trace]. rewrite Hp. exact Hin. }
    split; [exact Hc1|].
    rewrite while_runs_when_open by done. fold w0.
    by rewrite while_exits_when_closing.
  - intros key action sc' mods' Hne. rewrite key_callback_unfold.
    destruct (is_escape_press key action) eqn:E; [|done].
    unfold is_escape_press in E. apply andb_true_iff in E as [E1 E2].
    apply Z.eqb_eq in E1, E2. congruence.
Qed.

(** C10. For any key event handed to [key_callback]: the close flag of the
    window afterwards is its value before, or-ed with "the key is Escape and
    the action is a press"; for any other event (another key, or Escape
    released or repeated) the whole state is as it was; and a press of
    Escape changes nothing but that flag and the record of the call. *)
Theorem key_callback_sets_flag_iff_escape_press (window : handle)
    (key scancode action mods : Z) (w : World) :
  let press := (key =? GLFW_KEY_ESCAPE) && (action =? GLFW_PRESS) in
  let w' := (key_callback window key scancode action mods w).2 in
  (press = true ↔ key = GLFW_KEY_ESCAPE ∧ action = GLFW_PRESS) ∧
  windows w' !! window
  = (λ x, set_should_close (should_close x || press) x)
      <$> windows w !! window ∧
  (press = false → w' = w) ∧
  (key = GLFW_KEY_ESCAPE → action = GLFW_RELEASE ∨ action = GLFW_REPEAT →
   w' = w) ∧
  (key ≠ GLFW_KEY_ESCAPE → w' = w) ∧
  (∀ h, h ≠ window → windows w' !! h = windows w !! h) ∧
  trace w'
  = trace w
    ++ (if press then [CallSetWindowShouldClose window GLFW_TRUE] else []) ∧
  (glfw_initialized w', current w', pending w', stdout w', stderr w',
   no_context_calls w')
  = (glfw_initialized w, current w, pending w, stdout w, stderr w,
     no_context_calls w).
Proof.
  intros press w'. subst w'. rewrite key_callback_unfold.
  unfold is_escape_press.
  assert (press = true ↔ key = GLFW_KEY_ESCAPE ∧ action = GLFW_PRESS) as Hiff.
  { subst press. rewrite andb_true_iff, !Z.eqb_eq. done. }
  change ((key =? GLFW_KEY_ESCAPE) && (action =? GLFW_PRESS)) with press.
  clearbody press. destruct press; cbn [snd].
  - split_and!; try done.
    + cbn [windows set_windows set_trace]. rewrite lookup_alter_eq.
      destruct (windows w !! window) as [x|]; [|done]. cbn.
      by rewrite orb_true_r.
    + intros Hk [Ha|Ha]; destruct Hiff as [Hiff _];
        destruct (Hiff eq_refl) as [_ Hp]; rewrite Hp in Ha; discriminate Ha.
    + intros Hk. destruct Hiff as [Hiff _]. by destruct (Hiff eq_refl).
    + intros h Hne. cbn [windows set_windows set_trace].
      by rewrite lookup_alter_ne.
  - split_and!; try done.
    + destruct (windows w !! window) as [x|]; [|done]. cbn.
      by rewrite orb_false_r, set_should_close_same.
    + by rewrite app_nil_r.
Qed.

(** ** Shutdown and the exit status *)

Lemma gl_call_without_context {A : Type} (c : Call) (f : GL A) (dflt : A)
    (w : World) :
  current w = None →
  gl_call c f dflt w
  = (dflt,
     set_no_context_calls (no_context_calls w ++ [c])
       (set_trace (trace w ++ [c]) w)).
Proof.
  intros H. unfold gl_call, current_context.
  cbn [log modify snd current set_trace]. by rewrite H.
Qed.

Lemma main_epilogue_status (window : handle) (d : OpenGLDrawingData)
    (shader_program : GLuint) (w : World) :
  (main_epilogue window d shader_program w).1 = EXIT_SUCCESS.
Proof. reflexivity. Qed.

(** C3, as the code has it: when the context of the window is the current
    one, [main] first destroys the window, which detaches and destroys that
    context, and only then issues the four deletions, each of them with no
    context current; the library is torn down last. *)
Theorem shutdown_deletes_without_context (window : handle)
    (d : OpenGLDrawingData) (shader_program : GLuint) (w : World) :
  current w = Some window →
  let w1 := (glfwDestroyWindow window w).2 in
  let w' := (main_epilogue window d shader_program w).2 in
  current w1 = None ∧ windows w1 !! window = None ∧
  trace w'
  = trace w
    ++ [ CallDestroyWindow window;
         CallDeleteVertexArrays 1 (vao_name d);
         CallDeleteBuffers 1 (vbo_name d);
         CallDeleteBuffers 1 (ibo_name d);
         CallDeleteProgram shader_program;
         CallTerminate ] ∧
  no_context_calls w'
  = no_context_calls w
    ++ [ CallDeleteVertexArrays 1 (vao_name d);
         CallDeleteBuffers 1 (vbo_name d);
         CallDeleteBuffers 1 (ibo_name d);
         CallDeleteProgram shader_program ].
Proof.
  intros H. cbn zeta.
  assert (glfwDestroyWindow window w
          = (tt, set_windows (delete window)
                   (set_current None
                      (set_trace (trace w ++ [CallDestroyWindow window]) w))))
    as HD.
  { unfold glfwDestroyWindow. rewrite bind_run.
    cbn [log modify fst snd]. unfold modify. cbn [current set_trace].
    by rewrite bool_decide_eq_true_2. }
  rewrite HD. cbn [snd current set_windows set_current windows].
  split; [done|]. split; [apply lookup_delete_eq|].
  unfold main_epilogue. rewrite bind_run, HD. cbn [fst snd].
  unfold glDeleteVertexArrays, glDeleteBuffers, glDeleteProgram.
  do 4 (rewrite bind_run; rewrite gl_call_without_context by done;
        cbn [fst snd]).
  rewrite bind_run. unfold glfwTerminate. rewrite !bind_run.
  cbn [log modify mret M_ret ret fst snd trace no_context_calls set_trace
       set_no_context_calls set_windows set_current set_glfw_initialized].
  rewrite <- !app_assoc. done.
Qed.

Section WholeProgram.

Variable glsl_compile : GLenum → string → bool * string.
Variable glsl_link : list Shader → bool * string.
Variable indeterminate_GLuint : GLuint.
Variable indeterminate_int : Z.
Variable indeterminate_chars : string.
Variable initialize_glfw_glad_and_return_window :
  Z → Z → string → bool → bool → bool → M handle.

(** C9. Whenever the render loop is left, [main] ends, and its exit status
    is [EXIT_SUCCESS], whatever the compiler and the linker said about the
    shaders; [main] ends with no other status. *)
Theorem main_exits_with_success (fuel : nat) (w : World) :
  is_Some
    (main_at_loop_exit glsl_compile glsl_link indeterminate_GLuint
       indeterminate_int indeterminate_chars
       initialize_glfw_glad_and_return_window fuel w) →
  (∃ w',
     main glsl_compile glsl_link indeterminate_GLuint indeterminate_int
       indeterminate_chars initialize_glfw_glad_and_return_window fuel w
     = Some (EXIT_SUCCESS, w')) ∧
  ∀ status w',
    main glsl_compile glsl_link indeterminate_GLuint indeterminate_int
      indeterminate_chars initialize_glfw_glad_and_return_window fuel w
    = Some (status, w') →
    status = EXIT_SUCCESS.
Proof.
  unfold main, main_at_loop_exit. cbv zeta.
  generalize (initialize_glfw_glad_and_return_window SCREEN_WIDTH
                SCREEN_HEIGHT "glfw window" false false false w).
  intros r1.
  generalize (prepare_drawing_data_and_opengl_drawing_data
                indeterminate_GLuint r1.2).
  intros r2.
  generalize (create_shader_program glsl_compile glsl_link indeterminate_int
                indeterminate_chars r2.2).
  intros r3 [w4 Hloop]. rewrite Hloop. cbn [mbind option_bind].
  split.
  - eexists. f_equal.
  - intros status w' Hs.
    pose proof (f_equal (fmap fst) Hs) as Hf.
    cbn [fmap option_fmap option_map fst] in Hf.
    rewrite main_epilogue_status in Hf. congruence.
Qed.

Lemma while_stdout (window : handle) (shader_program vao_name : GLuint)
    (fuel : nat) (w w' : World) :
  while fuel (main_loop_cond window)
    (main_loop_body window shader_program vao_name) w = Some w' →
  stdout w' = stdout w.
Proof.
  revert w. induction fuel as [|fuel IH]; intros w Hrun; [done|].
  destruct (closing window w) eqn:Hc.
  - rewrite while_exits_when_closing in Hrun by done. by injection Hrun as <-.
  - rewrite while_runs_when_open in Hrun by done.
    rewrite (IH _ Hrun).
    destruct (main_loop_body_spec window shader_program vao_name
                (log (CallWindowShouldClose window) w).2)
      as (_ & _ & Ho & _).
    by rewrite Ho.
Qed.

Lemma main_epilogue_stdout (window : handle) (d : OpenGLDrawingData)
    (shader_program : GLuint) (w : World) :
  stdout (main_epilogue window d shader_program w).2 = stdout w.
Proof.
  unfold main_epilogue, glDeleteVertexArrays, glDeleteBuffers,
    glDeleteProgram.
  rewrite bind_run.
  assert (stdout (glfwDestroyWindow window w).2 = stdout w) as H0.
  { unfold glfwDestroyWindow. rewrite bind_run. cbn [log modify fst snd].
    unfold modify. cbn [snd stdout set_windows].
    by destruct (bool_decide _). }
  revert H0. generalize (glfwDestroyWindow window w).2. intros w1 H1.
  do 4 (rewrite bind_run;
        match goal with
        | |- context [gl_call ?c ?f ?d ?wk] =>
            destruct (gl_call_quiet c f d wk) as (_ & _ & Ho & _);
            revert Ho; generalize (gl_call c f d wk).2
        end;
        let w2 := fresh "w" in let H2 := fresh "H" in
        intros w2 H2).
  rewrite !bind_run. cbn [glfwTerminate]. unfold glfwTerminate.
  rewrite !bind_run. cbn [log modify mret M_ret ret fst snd stdout
    set_glfw_initialized set_current set_windows set_trace].
  congruence.
Qed.

(** Over the whole of [main], nothing reaches standard output but the
    diagnostics of the three stages. *)
Lemma main_prints_only_diagnostics (fuel : nat) (w : World) (ctx : GLContext)
    (status : Z) (w' : World) :
  let r1 :=
    initialize_glfw_glad_and_return_window SCREEN_WIDTH SCREEN_HEIGHT
      "glfw window" false false false w in
  current_context r1.2 = Some ctx →
  main glsl_compile glsl_link indeterminate_GLuint indeterminate_int
    indeterminate_chars initialize_glfw_glad_and_return_window fuel w
  = Some (status, w') →
  stdout w' = stdout r1.2 +:+ diagnostics glsl_compile glsl_link.
Proof.
  intros r1 Hctx. unfold main. fold r1. clearbody r1.
  destruct (prepare_spec indeterminate_GLuint r1.2 ctx Hctx)
    as (c2 & Hw2 & _).
  revert Hw2.
  generalize (prepare_drawing_data_and_opengl_drawing_data
                indeterminate_GLuint r1.2).
  intros r2 Hw2.
  assert (current_context r2.2 = Some c2) as Hctx2.
  { rewrite Hw2. by eapply current_context_upd. }
  destruct (create_shader_program_spec glsl_compile glsl_link
              indeterminate_int indeterminate_chars r2.2 c2 Hctx2)
    as (c3 & vs & fs & Hw3 & _).
  revert Hw3.
  generalize (create_shader_program glsl_compile glsl_link indeterminate_int
                indeterminate_chars r2.2).
  intros r3 Hw3.
  destruct (while fuel _ _ r3.2) as [w4|] eqn:Hloop; [|done].
  cbn [mbind option_bind]. intros Hs.
  pose proof (f_equal (fmap snd) Hs) as Hf.
  cbn [fmap option_fmap option_map snd] in Hf.
  apply (inj Some) in Hf. rewrite <- Hf.
  rewrite main_epilogue_stdout, (while_stdout _ _ _ _ _ _ Hloop).
  rewrite Hw3, stdout_upd, Hw2, stdout_upd.
  by rewrite string_app_nil_r.
Qed.

End WholeProgram.

(** ** The theorems at a concrete run *)

Lemma booted_context (events : list (list Event)) :
  current_context (booted events) = Some (fresh_context 640 480).
Proof. vm_compute. reflexivity. Qed.

Lemma booted_current (events : list (list Event)) :
  current (booted events) = Some 1%N.
Proof. vm_compute. reflexivity. Qed.

Lemma booted_hooked (events : list (list Event)) :
  hooked 1%N (booted events) = true.
Proof. vm_compute. reflexivity. Qed.

Lemma booted_open (events : list (list Event)) :
  closing 1%N (booted events) = false.
Proof. vm_compute. reflexivity. Qed.

Lemma booted_pending (events : list (list Event)) :
  pending (booted events) = events.
Proof. reflexivity. Qed.

Lemma vertex_buffer_holds_quad_witness :
  current_context (booted []) = Some (fresh_context 640 480) ∧
  ∃ ctx' v,
    current_context
      (prepare_drawing_data_and_opengl_drawing_data 0%N (booted [])).2
    = Some ctx' ∧
    decode_vertex_buffer ctx' (attrib_of v 0)
    = Some [ (1 # 2, 1 # 2, 0); (1 # 2, -1 # 2, 0);
             (-1 # 2, -1 # 2, 0); (-1 # 2, 1 # 2, 0) ]%Q.
Proof.
  split; [apply booted_context|].
  destruct (vertex_buffer_holds_quad 0%N (booted []) (fresh_context 640 480)
              (booted_context _))
    as (ctx' & v & b & H1 & _ & _ & _ & _ & _ & _ & _ & H9).
  exists ctx', v. split; [exact H1 | exact H9].
Defined.

Lemma index_buffer_holds_two_triangles_witness :
  current_context (booted []) = Some (fresh_context 640 480) ∧
  ∃ ctx' v,
    current_context
      (prepare_drawing_data_and_opengl_drawing_data 0%N (booted [])).2
    = Some ctx' ∧
    decode_index_buffer ctx' v = Some [0; 1; 3; 1; 2; 3]%N.
Proof.
  split; [apply booted_context|].
  destruct (index_buffer_holds_two_triangles 0%N (booted [])
              (fresh_context 640 480) (booted_context _))
    as (ctx' & v & b & H1 & _ & _ & _ & _ & _ & H7 & _).
  exists ctx', v. split; [exact H1 | exact H7].
Defined.

Lemma index_buffer_stays_attached_witness :
  current_context (booted []) = Some (fresh_context 640 480) ∧
  let r := prepare_drawing_data_and_opengl_drawing_data 0%N (booted []) in
  ∃ ctx' v,
    current_context r.2 = Some ctx' ∧
    array_buffer ctx' = 0%N ∧
    vaos ctx' !! vao_name r.1 = Some v ∧
    vao_element_buffer v = ibo_name r.1.
Proof.
  split; [apply booted_context|].
  destruct (index_buffer_stays_attached 0%N (booted [])
              (fresh_context 640 480) (booted_context _))
    as (_ & _ & _ & ctx' & v & H1 & H2 & H3 & H4 & _).
  exists ctx', v. split_and!; [exact H1 | exact H2 | exact H3 | exact H4].
Defined.

Lemma vertex_failure_is_logged_and_survived_witness :
  current_context (booted []) = Some (fresh_context 640 480) ∧
  vertex_ok rejecting_vertex_compile = false ∧
  let r :=
    create_shader_program rejecting_vertex_compile strict_link 0
      EmptyString (booted []) in
  r.1 ≠ 0%N ∧
  ∃ rest,
    stdout r.2
    = stdout (booted []) +:+ "ERROR::SHADER::VERTEX::COMPILATION_FAILED"
      +:+ nl +:+ "0:1(1): error: syntax error" +:+ nl +:+ rest.
Proof.
  split; [apply booted_context|]. split; [reflexivity|].
  destruct (vertex_failure_is_logged_and_survived rejecting_vertex_compile
              strict_link 0 EmptyString (booted []) (fresh_context 640 480)
              (booted_context _) eq_refl)
    as (vs & fs & ctx' & rest & H1 & _ & _ & H4 & _).
  split; [exact H4|]. exists rest. exact H1.
Defined.

Lemma diagnostics_exactly_on_failure_witness :
  current_context (booted []) = Some (fresh_context 640 480) ∧
  stdout
    (create_shader_program accepting_compile strict_link 0 EmptyString
       (booted [])).2
  = stdout (booted []).
Proof.
  split; [apply booted_context|].
  destruct (diagnostics_exactly_on_failure accepting_compile strict_link 0
              EmptyString (booted []) (fresh_context 640 480) (booted_context _))
    as (_ & H & _).
  apply H; reflexivity.
Defined.

Lemma escape_press_ends_the_loop_witness :
  hooked 1%N (booted [[escape_press]]) = true ∧
  closing 1%N (booted [[escape_press]]) = false ∧
  let w0 := (main_loop_cond 1%N (booted [[escape_press]])).2 in
  let w1 := (main_loop_body 1%N 3%N 1%N w0).2 in
  closing 1%N w1 = true ∧
  while 2 (main_loop_cond 1%N) (main_loop_body 1%N 3%N 1%N)
    (booted [[escape_press]])
  = Some (main_loop_cond 1%N w1).2.
Proof.
  split; [apply booted_hooked|]. split; [apply booted_open|].
  destruct (escape_press_ends_the_loop 1%N 3%N 1%N (booted [[escape_press]])
              [escape_press] [] 9 0 0 (booted_hooked _) (booted_open _)
              (booted_pending _) (list_elem_of_here _ _))
    as (_ & H & _).
  exact H.
Defined.

Lemma shutdown_deletes_without_context_witness :
  current (booted []) = Some 1%N ∧
  no_context_calls
    (main_epilogue 1%N (mkOpenGLDrawingData 1 2 1) 3%N (booted [])).2
  = [ CallDeleteVertexArrays 1 1; CallDeleteBuffers 1 1;
      CallDeleteBuffers 1 2; CallDeleteProgram 3 ].
Proof.
  split; [apply booted_current|].
  destruct (shutdown_deletes_without_context 1%N
              (mkOpenGLDrawingData 1 2 1) 3%N (booted []) (booted_current _))
    as (_ & _ & _ & H).
  exact H.
Defined.

Lemma failed_run_leaves_loop :
  is_Some
    (main_at_loop_exit rejecting_vertex_compile strict_link 0%N 0 EmptyString
       window_bootstrap 2 (initial_world [[escape_press]])).
Proof. vm_compute. eexists. reflexivity. Qed.

Lemma main_exits_with_success_witness :
  is_Some
    (main_at_loop_exit rejecting_vertex_compile strict_link 0%N 0 EmptyString
       window_bootstrap 2 (initial_world [[escape_press]])) ∧
  ∃ w',
    main rejecting_vertex_compile strict_link 0%N 0 EmptyString
      window_bootstrap 2 (initial_world [[escape_press]])
    = Some (EXIT_SUCCESS, w').
Proof.
  split; [exact failed_run_leaves_loop|].
  exact (proj1 (main_exits_with_success rejecting_vertex_compile strict_link
                  0%N 0 EmptyString window_bootstrap 2
                  (initial_world [[escape_press]]) failed_run_leaves_loop)).
Defined.

(** *** Sample runs *)

(** Set-up in the fresh context of the first window: the names are 1, 1
    and 2, and the two buffers read back as the quad and its indices. *)
Example setup_reads_back :
  let r := prepare_drawing_data_and_opengl_drawing_data 0%N (booted []) in
  (r.1,
   ctx ← current_context r.2;
   v ← vaos ctx !! vao_name r.1;
   positions ← decode_vertex_buffer ctx (attrib_of v 0);
   indices ← decode_index_buffer ctx v;
   Some (positions, triangles_of indices))
  = (mkOpenGLDrawingData 1 2 1,
     Some ([ (1 # 2, 1 # 2, 0); (1 # 2, -1 # 2, 0);
             (-1 # 2, -1 # 2, 0); (-1 # 2, 1 # 2, 0) ]%Q,
           [ (0, 1, 3); (1, 2, 3) ]%N)).
Proof. vm_compute. reflexivity. Qed.

(** The vertex shader is rejected, the first poll brings a press of
    Escape: both failed stages are reported and the exit status is 0. *)
Example failed_run_output :
  (λ r : Z * World, (r.1, stdout r.2))
    <$> main rejecting_vertex_compile strict_link 0%N 0 EmptyString
          window_bootstrap 2 (initial_world [[escape_press]])
  = Some (0,
          "ERROR::SHADER::VERTEX::COMPILATION_FAILED" +:+ nl
          +:+ "0:1(1): error: syntax error" +:+ nl
          +:+ "ERROR::SHADER::PROGRAM::LINKING_FAILED" +:+ nl
          +:+ "error: linking with uncompiled shader" +:+ nl).
Proof. vm_compute. reflexivity. Qed.

(** A run that compiles and links: nothing is printed, one frame is drawn,
    and the shutdown calls come in the order of the source, the deletions
    after the window is gone. *)
Example accepted_run_trace :
  (λ r : Z * World,
     (stdout r.2, drop 27 (trace r.2), no_context_calls r.2))
    <$> main accepting_compile strict_link 0%N 0 EmptyString
          window_bootstrap 2 (initial_world [[escape_press]])
  = Some (EmptyString,
          [ CallWindowShouldClose 1;
            CallGetFramebufferSize 1; CallViewport 0 0 640 480;
            CallClear GL_COLOR_BUFFER_BIT; CallUseProgram 3;
            CallBindVertexArray 1;
            CallDrawElements GL_TRIANGLES 6 GL_UNSIGNED_INT 0;
            CallSwapBuffers 1; CallPollEvents;
            CallSetWindowShouldClose 1 GLFW_TRUE;
            CallWindowShouldClose 1;
            CallDestroyWindow 1;
            CallDeleteVertexArrays 1 1; CallDeleteBuffers 1 1;
            CallDeleteBuffers 1 2; CallDeleteProgram 3;
            CallTerminate ],
          [ CallDeleteVertexArrays 1 1; CallDeleteBuffers 1 1;
            CallDeleteBuffers 1 2; CallDeleteProgram 3 ]).
Proof. vm_compute. reflexivity. Qed.
